(** * createMetadata.py: bulk creation of Dataplex Aspect Types

    A shallow embedding of [src/metadata/createMetadata.py].  The script
    lists the [.json] entries of a folder, derives an Aspect Type ID from
    each filename, and for each file reads it, asks [gcloud] for an access
    token and runs [curl] to POST the file to the Dataplex REST endpoint.

    Python [str] values are modelled as [string]; a character is a code
    point in the range U+0000..U+00FF.  Interaction with the operating
    system (directory listing, file reads, subprocesses, [print]) is
    modelled by a trace of events and a [World] that answers each request
    as a function of the trace so far. *)

From Stdlib Require Import String Ascii List ZArith NArith Bool Lia.
From Stdlib Require Import Sorted Permutation DecimalString.
Import ListNotations.

Local Open Scope list_scope.
Local Open Scope string_scope.

(** ** Python string primitives *)

Module Py.

(** Characters as code points. *)
Definition ord (c : ascii) : N := N_of_ascii c.
Definition chr (n : N) : ascii := ascii_of_N n.

Definition in_range (lo hi : N) (c : ascii) : bool :=
  (N.leb lo (ord c) && N.leb (ord c) hi)%bool.

(** The character class [a-z0-9] of the pattern in [main]. *)
Definition is_lower_alnum (c : ascii) : bool :=
  (in_range 97 122 c || in_range 48 57 c)%bool.

(** [A-Za-z0-9]: the characters that lowercase into [a-z0-9]. *)
Definition is_alnum (c : ascii) : bool :=
  (in_range 65 90 c || is_lower_alnum c)%bool.

(** [str.lower] on one code point below U+0100: the ASCII capitals and
    the Latin-1 capitals U+00C0..U+00DE (but not the sign U+00D7) move up
    by 32; every other code point is left as it is. *)
Definition lower_char (c : ascii) : ascii :=
  if in_range 65 90 c then chr (ord c + 32)
  else if (in_range 192 222 c && negb (N.eqb (ord c) 215))%bool then chr (ord c + 32)
  else c.

Fixpoint lower (s : string) : string :=
  match s with
  | EmptyString => EmptyString
  | String c r => String (lower_char c) (lower r)
  end.

(** [s.endswith(suffix)]: some tail of [s] is [suffix]. *)
Fixpoint endswith (s suffix : string) : bool :=
  if String.eqb s suffix then true
  else match s with
       | EmptyString => false
       | String _ r => endswith r suffix
       end.

(** [s.startswith(prefix)]. *)
Definition startswith (s pre : string) : bool := String.prefix pre s.

(** [s.rfind(c)] for a one-character needle: the highest index of [c]
    in [s], or [-1]. *)
Fixpoint rfind (s : string) (c : ascii) : Z :=
  match s with
  | EmptyString => (-1)%Z
  | String a r =>
      let i := rfind r c in
      if (0 <=? i)%Z then (i + 1)%Z
      else if Ascii.eqb a c then 0%Z else (-1)%Z
  end.

(** [s[i:i+1]] for [0 <= i]. *)
Definition slice1 (s : string) (i : Z) : string :=
  substring (Z.to_nat i) 1 s.

(** [s[:i]] and [s[i:]] for [0 <= i]. *)
Definition slice_to (s : string) (i : Z) : string :=
  substring 0 (Z.to_nat i) s.

Definition slice_from (s : string) (i : Z) : string :=
  substring (Z.to_nat i) (String.length s - Z.to_nat i) s.

(** [s.lstrip(c)], [s.rstrip(c)] and [s.strip(c)] for a set of
    characters given as a predicate. *)
Fixpoint lstrip (p : ascii -> bool) (s : string) : string :=
  match s with
  | EmptyString => EmptyString
  | String c r => if p c then lstrip p r else s
  end.

Fixpoint rstrip (p : ascii -> bool) (s : string) : string :=
  match s with
  | EmptyString => EmptyString
  | String c r =>
      match rstrip p r with
      | EmptyString => if p c then EmptyString else String c EmptyString
      | r' => String c r'
      end
  end.

Definition strip (p : ascii -> bool) (s : string) : string :=
  rstrip p (lstrip p s).

Definition is_hyphen (c : ascii) : bool := Ascii.eqb c "-".

(** [str.isspace] on a code point below U+0100. *)
Definition is_space (c : ascii) : bool :=
  (in_range 9 13 c || in_range 28 32 c || N.eqb (ord c) 133 || N.eqb (ord c) 160)%bool.

(** [str(n)] for an integer. *)
Definition str_int (z : Z) : string := NilZero.string_of_int (Z.to_int z).
Definition str_nat (n : nat) : string := NilZero.string_of_uint (Nat.to_uint n).

(** [not s] for a string. *)
Definition is_empty (s : string) : bool :=
  match s with EmptyString => true | _ => false end.

(** Carriage return and line feed. *)
Definition cr : ascii := chr 13.
Definition lf : ascii := chr 10.
Definition is_cr (c : ascii) : bool := Ascii.eqb c cr.

(** What a file object opened in text mode with the default [newline]
    does to the text it reads: every [CR LF] and every lone [CR]
    becomes one [LF]. *)
Fixpoint universal_newlines (s : string) : string :=
  match s with
  | EmptyString => EmptyString
  | String c r =>
      if is_cr c then
        match r with
        | String d r' =>
            if Ascii.eqb d lf then String lf (universal_newlines r')
            else String lf (universal_newlines r)
        | EmptyString => String lf EmptyString
        end
      else String c (universal_newlines r)
  end.

(** [repr] of a member of [signal.Signals] (the names of CPython on
    Linux), when [n] is the number of one. *)
Definition signal_name (n : Z) : option string :=
  match n with
  | 1 => Some "SIGHUP" | 2 => Some "SIGINT" | 3 => Some "SIGQUIT"
  | 4 => Some "SIGILL" | 5 => Some "SIGTRAP" | 6 => Some "SIGABRT"
  | 7 => Some "SIGBUS" | 8 => Some "SIGFPE" | 9 => Some "SIGKILL"
  | 10 => Some "SIGUSR1" | 11 => Some "SIGSEGV" | 12 => Some "SIGUSR2"
  | 13 => Some "SIGPIPE" | 14 => Some "SIGALRM" | 15 => Some "SIGTERM"
  | 16 => Some "SIGSTKFLT" | 17 => Some "SIGCHLD" | 18 => Some "SIGCONT"
  | 19 => Some "SIGSTOP" | 20 => Some "SIGTSTP" | 21 => Some "SIGTTIN"
  | 22 => Some "SIGTTOU" | 23 => Some "SIGURG" | 24 => Some "SIGXCPU"
  | 25 => Some "SIGXFSZ" | 26 => Some "SIGVTALRM" | 27 => Some "SIGPROF"
  | 28 => Some "SIGWINCH" | 29 => Some "SIGIO" | 30 => Some "SIGPWR"
  | 31 => Some "SIGSYS" | 34 => Some "SIGRTMIN" | 64 => Some "SIGRTMAX"
  | _ => None
  end%Z.

(** [all(p(c) for c in s)]. *)
Fixpoint all (p : ascii -> bool) (s : string) : bool :=
  match s with
  | EmptyString => true
  | String c r => (p c && all p r)%bool
  end.

End Py.

(** ** [os.path] (POSIX flavour) *)

Module OsPath.

Definition sep : ascii := "/".
Definition extsep : ascii := ".".

(** The loop of [genericpath._splitext] that skips leading dots:
    [n] is the number of indices left before [dotIndex]; the result says
    whether a character other than [extsep] was met. *)
Fixpoint has_non_dot (p : string) (filenameIndex : Z) (n : nat) : bool :=
  match n with
  | O => false
  | S n' =>
      if negb (String.eqb (Py.slice1 p filenameIndex) (String extsep EmptyString))
      then true
      else has_non_dot p (filenameIndex + 1) n'
  end.

(** [os.path.splitext(p)]. *)
Definition splitext (p : string) : string * string :=
  let sepIndex := Py.rfind p sep in
  let dotIndex := Py.rfind p extsep in
  if (sepIndex <? dotIndex)%Z then
    let filenameIndex := (sepIndex + 1)%Z in
    if has_non_dot p filenameIndex (Z.to_nat (dotIndex - filenameIndex))
    then (Py.slice_to p dotIndex, Py.slice_from p dotIndex)
    else (p, EmptyString)
  else (p, EmptyString).

(** [os.path.join(a, b)]. *)
Definition join (a b : string) : string :=
  if Py.startswith b (String sep EmptyString) then b
  else if (Py.is_empty a || Py.endswith a (String sep EmptyString))%bool then a ++ b
  else a ++ String sep EmptyString ++ b.

Definition is_sep (c : ascii) : bool := Ascii.eqb c sep.
Definition is_extsep (c : ascii) : bool := Ascii.eqb c extsep.

End OsPath.

(** ** [re.sub(r'[^a-z0-9]+', '-', s)] *)

Module Re.

(** The scanner is in one of two states: [in_run = true] when the
    previous character was consumed by the current match of
    [[^a-z0-9]+], whose replacement has already been written. *)
Fixpoint sub_from (in_run : bool) (s : string) : string :=
  match s with
  | EmptyString => EmptyString
  | String c r =>
      if Py.is_lower_alnum c then String c (sub_from false r)
      else if in_run then sub_from true r
      else String "-" (sub_from true r)
  end.

Definition sub_non_alnum (s : string) : string := sub_from false s.

End Re.


(** ** Resource ID derivation (lines 125-127 of [main]) *)

Definition base_name (filename : string) : string :=
  fst (OsPath.splitext filename).

Definition resource_id_of (filename : string) : string :=
  let base_name := base_name filename in
  let resource_id := Re.sub_non_alnum (Py.lower base_name) in
  Py.strip Py.is_hyphen resource_id.

(** ** Exceptions, events and the outside world *)

(** The exception classes the script distinguishes in its [except]
    clauses; [OtherException] stands for any other subclass of
    [Exception] ([PermissionError], [UnicodeDecodeError], ...). *)
Inductive exn : Type :=
| FileNotFoundError (msg : string)
| CalledProcessError (returncode : Z) (cmd : list string) (stdout stderr : string)
| ValueError (msg : string)
| OtherException (msg : string).

(** [repr] of an argument vector, for arguments that need no escaping. *)
Definition repr_argv (cmd : list string) : string :=
  "[" ++ String.concat ", " (map (fun a => "'" ++ a ++ "'") cmd) ++ "]".

(** [str(e)].  A [CalledProcessError] with a negative return code is
    worded after the signal that ended the process. *)
Definition str_exn (e : exn) : string :=
  match e with
  | FileNotFoundError msg => msg
  | CalledProcessError rc cmd _ _ =>
      if (rc <? 0)%Z then
        match Py.signal_name (- rc) with
        | Some name =>
            "Command '" ++ repr_argv cmd ++ "' died with <Signals." ++ name
              ++ ": " ++ Py.str_int (- rc) ++ ">."
        | None =>
            "Command '" ++ repr_argv cmd ++ "' died with unknown signal "
              ++ Py.str_int (- rc) ++ "."
        end
      else
        "Command '" ++ repr_argv cmd ++ "' returned non-zero exit status "
          ++ Py.str_int rc ++ "."
  | ValueError msg => msg
  | OtherException msg => msg
  end.

(** What the script does to the outside, in the order it does it. *)
Inductive event : Type :=
| Print (line : string)
| IsDir (path : string)
| ListDir (path : string)
| OpenRead (path : string)
| Run (argv : list string).

Definition trace := list event.

(** [subprocess.CompletedProcess] with captured text output. *)
Record completed : Type := Completed {
  returncode : Z;
  stdout : string;
  stderr : string
}.

(** The outside world answers every request; the answer may depend on
    everything that happened before (the trace so far).  The contents
    of a file are its characters as the text layer decodes them, before
    any translation of line ends; a file that cannot be opened, read or
    decoded answers with the exception. *)
Record World : Type := {
  os_path_isdir : trace -> string -> bool;
  os_listdir : trace -> string -> exn + list string;
  file_contents : trace -> string -> exn + string;
  spawn : trace -> list string -> exn + completed
}.

(** What [f.read()] returns for a file opened with mode ['r']: the
    contents with universal newlines. *)
Definition read_text (w : World) (h : trace) (path : string) : exn + string :=
  match file_contents w h path with
  | inl e => inl e
  | inr contents => inr (Py.universal_newlines contents)
  end.

(** ** The [IO] monad: a computation receives the trace so far and
    yields the events it adds together with a value or a raised
    exception. *)

Definition IO (A : Type) : Type := trace -> trace * (exn + A).

Definition ret {A} (a : A) : IO A := fun _ => ([], inr a).

Definition raise {A} (e : exn) : IO A := fun _ => ([], inl e).

Definition bind {A B} (m : IO A) (k : A -> IO B) : IO B :=
  fun h =>
    let (t1, r) := m h in
    match r with
    | inl e => (t1, inl e)
    | inr a => let (t2, r2) := k a (h ++ t1)%list in ((t1 ++ t2)%list, r2)
    end.

(** [try: m] with the exception handed to the [except] clauses. *)
Definition try {A} (m : IO A) : IO (exn + A) :=
  fun h => let (t, r) := m h in (t, inr r).

Declare Scope io_scope.
Delimit Scope io_scope with io.
Notation "x <- m ;; k" := (bind m (fun x => k))
  (at level 61, m at next level, right associativity) : io_scope.
Notation "m ;; k" := (bind m (fun _ => k))
  (at level 61, right associativity) : io_scope.
Local Open Scope io_scope.

Fixpoint for_each {A} (l : list A) (body : A -> IO unit) : IO unit :=
  match l with
  | [] => ret tt
  | x :: rest => body x ;; for_each rest body
  end.

Definition emitted {A} (r : trace * (exn + A)) : trace := fst r.
Definition outcome {A} (r : trace * (exn + A)) : exn + A := snd r.

(** ** [sorted] on a list of strings *)

Definition str_le (s1 s2 : string) : Prop := String.leb s1 s2 = true.

Fixpoint insert_sorted (x : string) (l : list string) : list string :=
  match l with
  | [] => [x]
  | y :: r => if String.leb x y then x :: l else y :: insert_sorted x r
  end.

Fixpoint sorted (l : list string) : list string :=
  match l with
  | [] => []
  | x :: r => insert_sorted x (sorted r)
  end.

(** ** Messages printed by the script *)

Module Msg.

Definition nl : string := String (Py.chr 10) EmptyString.

Definition processing (definition_file_path api_resource_type resource_id : string) :=
  "Processing '" ++ definition_file_path ++ "' for " ++ api_resource_type
    ++ " ID: '" ++ resource_id ++ "'...".

Definition file_not_found (definition_file_path : string) :=
  "Error: Definition file not found: " ++ definition_file_path.

Definition read_error (definition_file_path : string) (e : exn) :=
  "Error reading file " ++ definition_file_path ++ ": " ++ str_exn e.

Definition token_failed : string :=
  "Error: Could not obtain Google Cloud access token.".

Definition token_hint : string :=
  "Please ensure gcloud CLI is installed and authenticated (e.g., `gcloud auth application-default login`).".

Definition token_stderr (err : string) := "Stderr: " ++ err.

Definition empty_token : string :=
  "Empty access token received from gcloud. Please ensure gcloud CLI is configured correctly.".

Definition token_value_error (e : exn) :=
  "Error obtaining access token: " ++ str_exn e.

Definition created (api_resource_type resource_id : string) :=
  "Successfully created " ++ api_resource_type ++ " with ID: " ++ resource_id.

Definition curl_error_head (api_resource_type resource_id : string) :=
  nl ++ "--- ERROR Creating " ++ api_resource_type ++ " with ID: " ++ resource_id ++ " ---".

Definition curl_error_url (api_url : string) := "  API URL: " ++ api_url.
Definition curl_error_file (path : string) := "  Definition File: " ++ path.
Definition curl_error_code (rc : Z) := "  Return Code: " ++ Py.str_int rc.
Definition curl_error_stdout (out : string) := "  Stdout: " ++ out.
Definition curl_error_stderr (err : string) := "  Stderr: " ++ err.
Definition curl_error_foot : string :=
  "--------------------------------------------------" ++ nl.

Definition curl_unexpected (resource_id : string) (e : exn) :=
  "An unexpected error occurred while calling curl for " ++ resource_id
    ++ ": " ++ str_exn e.

Definition dir_not_found (definitions_dir : string) :=
  "Error: Definitions directory not found: '" ++ definitions_dir ++ "'".

Definition no_json_files (definitions_dir : string) :=
  "No .json files found in '" ++ definitions_dir
    ++ "'. Please ensure your definition files are present and end with '.json'. Exiting.".

Definition found (n : nat) (definitions_dir : string) :=
  "Found " ++ Py.str_nat n ++ " JSON definition file(s) in '" ++ definitions_dir ++ "'.".

Definition skipping (filename : string) :=
  "Warning: Could not derive a valid resource ID from filename '" ++ filename
    ++ "'. Skipping this file.".

End Msg.

(** ** The script *)

Definition access_token_command : list string :=
  ["gcloud"; "auth"; "print-access-token"].

Definition api_url_of (project_id location api_resource_type resource_id : string) : string :=
  let id_param_name := "aspect_type_id" in
  "https://dataplex.googleapis.com/v1/projects/" ++ project_id ++ "/locations/"
    ++ location ++ "/" ++ api_resource_type ++ "?" ++ id_param_name ++ "=" ++ resource_id.

Definition curl_command (api_url access_token definition : string) : list string :=
  [ "curl";
    "--silent";
    "--fail";
    "--location"; api_url;
    "--header"; "Content-Type: application/json";
    "--header"; "Authorization: Bearer " ++ access_token;
    "--data"; definition ].

(** Command-line arguments after [parser.parse_args()]. *)
Record Args : Type := {
  project_id : string;
  location : string;
  definitions_dir : string
}.

Section Script.

Variable w : World.

(** [print(line)].  Writing to standard output is taken to succeed: a
    run in which [print] itself raises (a closed pipe, a character that
    the encoding of the terminal lacks) is outside this model. *)
Definition print (line : string) : IO unit :=
  fun _ => ([Print line], inr tt).

Definition isdir (path : string) : IO bool :=
  fun h => ([IsDir path], inr (os_path_isdir w h path)).

Definition listdir (path : string) : IO (list string) :=
  fun h => ([ListDir path], os_listdir w h path).

(** [with open(path, 'r') as f: f.read()]. *)
Definition open_read (path : string) : IO string :=
  fun h => ([OpenRead path], read_text w h path).

(** [subprocess.run(argv, capture_output=True, text=True, check=True)]. *)
Definition subprocess_run (argv : list string) : IO completed :=
  fun h =>
    ([Run argv],
     match spawn w h argv with
     | inl e => inl e
     | inr p =>
         if (returncode p =? 0)%Z then inr p
         else inl (CalledProcessError (returncode p) argv (stdout p) (stderr p))
     end).

(** The body of the [try] block of lines 39-44. *)
Definition fetch_access_token : IO string :=
  access_token_process <- subprocess_run access_token_command ;;
  let access_token := Py.strip Py.is_space (stdout access_token_process) in
  if Py.is_empty access_token
  then raise (ValueError Msg.empty_token)
  else ret access_token.

Definition create_metadata_resource
    (project_id location api_resource_type resource_id definition_file_path : string)
    : IO unit :=
  print (Msg.processing definition_file_path api_resource_type resource_id) ;;
  r <- try (open_read definition_file_path) ;;
  match r with
  | inl (FileNotFoundError _) =>
      print (Msg.file_not_found definition_file_path)
  | inl e =>
      print (Msg.read_error definition_file_path e)
  | inr definition =>
      let api_url := api_url_of project_id location api_resource_type resource_id in
      t <- try fetch_access_token ;;
      match t with
      | inl (CalledProcessError _ _ _ err) =>
          print Msg.token_failed ;;
          print Msg.token_hint ;;
          print (Msg.token_stderr err)
      | inl (ValueError msg) =>
          print (Msg.token_value_error (ValueError msg))
      | inl e => raise e
      | inr access_token =>
          let command := curl_command api_url access_token definition in
          c <- try (subprocess_run command) ;;
          match c with
          | inr result =>
              print (Msg.created api_resource_type resource_id) ;;
              print (stdout result)
          | inl (CalledProcessError rc _ out err) =>
              print (Msg.curl_error_head api_resource_type resource_id) ;;
              print (Msg.curl_error_url api_url) ;;
              print (Msg.curl_error_file definition_file_path) ;;
              print (Msg.curl_error_code rc) ;;
              print (Msg.curl_error_stdout out) ;;
              print (Msg.curl_error_stderr err) ;;
              print Msg.curl_error_foot
          | inl e =>
              print (Msg.curl_unexpected resource_id e)
          end
      end
  end.

Definition is_json (f : string) : bool := Py.endswith f ".json".

Definition json_files_of (entries : list string) : list string :=
  filter is_json entries.

(** The body of the [for] loop of [main]. *)
Definition process_file (args : Args) (api_resource_type filename : string) : IO unit :=
  let resource_id := resource_id_of filename in
  if Py.is_empty resource_id then
    print (Msg.skipping filename)
  else
    let definition_file_path := OsPath.join (definitions_dir args) filename in
    create_metadata_resource (project_id args) (location args) api_resource_type
      resource_id definition_file_path.

Definition main (args : Args) : IO unit :=
  let api_resource_type := "aspectTypes" in
  d <- isdir (definitions_dir args) ;;
  if negb d then
    print (Msg.dir_not_found (definitions_dir args))
  else
    entries <- listdir (definitions_dir args) ;;
    let json_files := json_files_of entries in
    match json_files with
    | [] => print (Msg.no_json_files (definitions_dir args))
    | _ =>
        print (Msg.found (length json_files) (definitions_dir args)) ;;
        for_each (sorted json_files) (process_file args api_resource_type)
    end.

End Script.

(** ** The slug as the specification words it *)

Module SlugSpec.

(** The maximal runs of a string: consecutive characters that are all
    inside or all outside [a-z0-9], each run tagged with its class. *)
Fixpoint runs (s : string) : list (bool * string) :=
  match s with
  | EmptyString => []
  | String c r =>
      let k := Py.is_lower_alnum c in
      match runs r with
      | (k', run) :: rest =>
          if Bool.eqb k k' then (k, String c run) :: rest
          else (k, String c "") :: (k', run) :: rest
      | [] => [(k, String c "")]
      end
  end.

(** A run outside [a-z0-9] becomes one hyphen; a run inside stays. *)
Definition replace_run (r : bool * string) : string :=
  if fst r then snd r else "-".

Definition flatten (l : list string) : string :=
  fold_right String.append "" l.

Definition hyphenate (s : string) : string :=
  flatten (map replace_run (runs s)).

(** "lowercasing and replacing non-alphanumeric runs with hyphens". *)
Definition slug (stem : string) : string := hyphenate (Py.lower stem).

(** The slug with leading and trailing hyphens removed. *)
Definition trimmed_slug (stem : string) : string :=
  Py.strip Py.is_hyphen (slug stem).

(** Every run is non-empty and of one class. *)
Definition uniform (r : bool * string) : Prop :=
  snd r <> "" /\ Py.all (fun c => Bool.eqb (Py.is_lower_alnum c) (fst r)) (snd r) = true.

(** Runs are maximal: neighbours are of different classes. *)
Fixpoint alternating (l : list (bool * string)) : Prop :=
  match l with
  | r1 :: ((r2 :: _) as rest) => fst r1 <> fst r2 /\ alternating rest
  | _ => True
  end.

(** The runs that are left for a scanner that is already inside a match:
    a first run outside [a-z0-9] belongs to that match. *)
Definition after_match (l : list (bool * string)) : list (bool * string) :=
  match l with
  | (false, _) :: rest => rest
  | _ => l
  end.

End SlugSpec.

(** ** Vocabulary for traces *)

(** The HTTP create requests and the token requests among the events. *)
Definition is_post (e : event) : bool :=
  match e with
  | Run argv => String.eqb (hd "" argv) "curl"
  | _ => false
  end.

Definition is_token_fetch (e : event) : bool :=
  match e with
  | Run argv => String.eqb (hd "" argv) "gcloud"
  | _ => false
  end.

Definition is_read (e : event) : bool :=
  match e with
  | OpenRead _ => true
  | _ => false
  end.

Definition posts (t : trace) : list event := filter is_post t.
Definition token_fetches (t : trace) : list event := filter is_token_fetch t.
Definition reads (t : trace) : list event := filter is_read t.

(** The template of the specification for the request URL. *)
Definition url_template (project_id location resource_id : string) : string :=
  "https://dataplex.googleapis.com/v1/projects/" ++ project_id ++ "/locations/"
    ++ location ++ "/aspectTypes?aspect_type_id=" ++ resource_id.

(** The argument that follows [--data] on a command line. *)
Fixpoint data_of (argv : list string) : option string :=
  match argv with
  | flag :: ((value :: _) as rest) =>
      if String.eqb flag "--data" then Some value else data_of rest
  | _ => None
  end.

Definition is_print (e : event) : Prop :=
  match e with
  | Print _ => True
  | _ => False
  end.

(** ** The ways one call of [create_metadata_resource] can go *)

Section FileRun.

Variable w : World.
Variables pid loc ty rid path : string.

(** The trace at the moment of the read, of the token request and of
    the [curl] call, when the call started after [h]. *)
Definition at_open (h : trace) : trace :=
  (h ++ [Print (Msg.processing path ty rid)])%list.
Definition at_token (h : trace) : trace :=
  (at_open h ++ [OpenRead path])%list.
Definition at_curl (h : trace) : trace :=
  (at_token h ++ [Run access_token_command])%list.

(** What the [try] block of the token yields after [h]. *)
Definition token_result (h : trace) : exn + string :=
  outcome (fetch_access_token w (at_token h)).

(** What [subprocess.run(command, check=True)] yields for [curl]. *)
Definition curl_result (h : trace) (command : list string) : exn + completed :=
  outcome (subprocess_run w command (at_curl h)).

Definition started : trace :=
  [Print (Msg.processing path ty rid); OpenRead path].

Definition token_requested : trace :=
  (started ++ [Run access_token_command])%list.

Definition api_url : string := api_url_of pid loc ty rid.

(** The ways one call can go: the events it adds after [h] and how it
    ends. *)
Inductive file_run (h : trace) : trace -> exn + unit -> Prop :=
| run_missing msg :
    read_text w (at_open h) path = inl (FileNotFoundError msg) ->
    file_run h (started ++ [Print (Msg.file_not_found path)])%list (inr tt)
| run_unreadable e :
    read_text w (at_open h) path = inl e ->
    (forall msg, e <> FileNotFoundError msg) ->
    file_run h (started ++ [Print (Msg.read_error path e)])%list (inr tt)
| run_token_exit definition rc cmd out err :
    read_text w (at_open h) path = inr definition ->
    token_result h = inl (CalledProcessError rc cmd out err) ->
    file_run h
      (token_requested ++
       [Print Msg.token_failed; Print Msg.token_hint; Print (Msg.token_stderr err)])%list
      (inr tt)
| run_token_value definition msg :
    read_text w (at_open h) path = inr definition ->
    token_result h = inl (ValueError msg) ->
    file_run h
      (token_requested ++ [Print (Msg.token_value_error (ValueError msg))])%list
      (inr tt)
| run_token_raised definition e :
    read_text w (at_open h) path = inr definition ->
    token_result h = inl e ->
    (forall rc cmd out err, e <> CalledProcessError rc cmd out err) ->
    (forall msg, e <> ValueError msg) ->
    file_run h token_requested (inl e)
| run_created definition access_token result :
    read_text w (at_open h) path = inr definition ->
    token_result h = inr access_token ->
    curl_result h (curl_command api_url access_token definition) = inr result ->
    file_run h
      (token_requested ++
       [Run (curl_command api_url access_token definition);
        Print (Msg.created ty rid); Print (stdout result)])%list
      (inr tt)
| run_curl_exit definition access_token rc cmd out err :
    read_text w (at_open h) path = inr definition ->
    token_result h = inr access_token ->
    curl_result h (curl_command api_url access_token definition)
      = inl (CalledProcessError rc cmd out err) ->
    file_run h
      (token_requested ++
       [Run (curl_command api_url access_token definition);
        Print (Msg.curl_error_head ty rid);
        Print (Msg.curl_error_url api_url);
        Print (Msg.curl_error_file path);
        Print (Msg.curl_error_code rc);
        Print (Msg.curl_error_stdout out);
        Print (Msg.curl_error_stderr err);
        Print Msg.curl_error_foot])%list
      (inr tt)
| run_curl_unexpected definition access_token e :
    read_text w (at_open h) path = inr definition ->
    token_result h = inr access_token ->
    curl_result h (curl_command api_url access_token definition) = inl e ->
    (forall rc cmd out err, e <> CalledProcessError rc cmd out err) ->
    file_run h
      (token_requested ++
       [Run (curl_command api_url access_token definition);
        Print (Msg.curl_unexpected rid e)])%list
      (inr tt).

End FileRun.

(** ** Vocabulary for one iteration of the loop and for [main] *)

Section Iteration.

Variable w : World.
Variable args : Args.

Definition path_of (filename : string) : string :=
  OsPath.join (definitions_dir args) filename.

(** The trace when [filename] is opened and when its token is
    requested, for an iteration that starts after [h]. *)
Definition reading_at (filename : string) (h : trace) : trace :=
  at_open "aspectTypes" (resource_id_of filename) (path_of filename) h.

Definition fetching_at (filename : string) (h : trace) : trace :=
  at_token "aspectTypes" (resource_id_of filename) (path_of filename) h.

(** The answers of the world to the read and to the token request. *)
Definition file_text (filename : string) (h : trace) : exn + string :=
  read_text w (reading_at filename h) (path_of filename).

(** The contents of the file, before the text layer translates the
    line ends. *)
Definition file_raw (filename : string) (h : trace) : exn + string :=
  file_contents w (reading_at filename h) (path_of filename).

Definition token_answer (filename : string) (h : trace) : exn + completed :=
  spawn w (fetching_at filename h) access_token_command.

(** The answer of the world to the [curl] command that carries
    [access_token] and [definition]. *)
Definition curl_answer (filename : string) (h : trace)
    (access_token definition : string) : exn + completed :=
  spawn w
    (at_curl "aspectTypes" (resource_id_of filename) (path_of filename) h)
    (curl_command
       (url_template (project_id args) (location args) (resource_id_of filename))
       access_token definition).

Definition file_token (filename : string) (h : trace) : exn + string :=
  token_result w "aspectTypes" (resource_id_of filename) (path_of filename) h.

(** The files for which an ID can be derived. *)
Definition has_id (filename : string) : bool :=
  negb (Py.is_empty (resource_id_of filename)).

Definition run_files (files : list string) : IO unit :=
  for_each files (process_file w args "aspectTypes").

(** What counts as a failure before the network call: the read raised,
    [subprocess.run] raised for the token command, the token command
    exited with an error, or its output was blank. *)
Definition fails_before_post (filename : string) (h : trace) : Prop :=
  (exists e, file_text filename h = inl e) \/
  (exists e, token_answer filename h = inl e) \/
  (exists p, token_answer filename h = inr p /\
             (returncode p <> 0%Z \/ Py.strip Py.is_space (stdout p) = "")).

(** [main] up to the loop, for a folder that exists and can be listed. *)
Definition prelude (entries : list string) : trace :=
  [IsDir (definitions_dir args); ListDir (definitions_dir args);
   Print (Msg.found (length (json_files_of entries)) (definitions_dir args))].

(** The answer of the world to [os.listdir], asked right after
    [os.path.isdir]. *)
Definition listing (h : trace) : exn + list string :=
  os_listdir w (h ++ [IsDir (definitions_dir args)])%list (definitions_dir args).

End Iteration.

(** Two worlds that give the same answers to everything but the
    listing of a folder. *)
Definition same_answers (w1 w2 : World) : Prop :=
  (forall h p, os_path_isdir w1 h p = os_path_isdir w2 h p) /\
  (forall h p, read_text w1 h p = read_text w2 h p) /\
  (forall h argv, spawn w1 h argv = spawn w2 h argv).

(** The token command can be started: the only exceptions that
    [subprocess.run] raises for it are the two that the script handles. *)
Definition token_command_starts (w : World) : Prop :=
  forall h e,
    spawn w h access_token_command = inl e ->
    (exists rc cmd out err, e = CalledProcessError rc cmd out err)
    \/ (exists msg, e = ValueError msg).

(** ** Vocabulary for the shape of identifiers and of runs *)

(** The first character of [s] exists and satisfies [p]. *)
Definition first_is (p : ascii -> bool) (s : string) : bool :=
  match s with
  | String c _ => p c
  | EmptyString => false
  end.

(** The last character of [s] exists and satisfies [p]. *)
Fixpoint last_is (p : ascii -> bool) (s : string) : bool :=
  match s with
  | EmptyString => false
  | String c r =>
      match r with
      | EmptyString => p c
      | String _ _ => last_is p r
      end
  end.

(** The characters an Aspect Type ID is made of. *)
Definition is_id_char (c : ascii) : bool :=
  (Py.is_lower_alnum c || Py.is_hyphen c)%bool.

(** Some hyphen of [s] is followed by another hyphen. *)
Fixpoint adjacent_hyphens (s : string) : bool :=
  match s with
  | EmptyString => false
  | String c r =>
      ((Py.is_hyphen c && first_is Py.is_hyphen r) || adjacent_hyphens r)%bool
  end.

(** A non-empty word over [a-z0-9-] in which hyphens only separate:
    none at either end and no two in a row. *)
Definition well_formed_id (s : string) : bool :=
  (negb (Py.is_empty s) && Py.all is_id_char s
   && negb (first_is Py.is_hyphen s) && negb (last_is Py.is_hyphen s)
   && negb (adjacent_hyphens s))%bool.

(** The exceptions for which the token block has an [except] clause. *)
Definition handled_by_token_block (e : exn) : bool :=
  match e with
  | CalledProcessError _ _ _ _ => true
  | ValueError _ => true
  | _ => false
  end.

(** The last thing a run did was to print a line. *)
Definition ends_with_print (t : trace) : Prop :=
  exists t' line, t = (t' ++ [Print line])%list.

(** ** Sample worlds *)

Definition demo_args : Args :=
  {| project_id := "proj"; location := "global"; definitions_dir := "defs" |}.

Definition demo_entries : list string :=
  ["b.json"; "notes.txt"; "A_x.json"; "___.json"].

(** Everything works: [gcloud] prints a token, [curl] exits with 0. *)
Definition demo_world : World :=
  {| os_path_isdir := fun _ p => String.eqb p "defs";
     os_listdir := fun _ _ => inr demo_entries;
     file_contents := fun _ p => inr ("{" ++ p ++ "}");
     spawn := fun h argv =>
       if String.eqb (hd "" argv) "gcloud"
       then inr (Completed 0 (" ya29.t" ++ Py.str_nat (length h) ++ Msg.nl) "")
       else inr (Completed 0 "{}" "") |}.

(** The definition files cannot be read. *)
Definition unreadable_world : World :=
  {| os_path_isdir := os_path_isdir demo_world;
     os_listdir := os_listdir demo_world;
     file_contents := fun _ _ => inl (OtherException "[Errno 13] Permission denied");
     spawn := spawn demo_world |}.

(** The same folder on a machine where [gcloud] is not installed:
    [subprocess.run] raises [FileNotFoundError] for it. *)
Definition no_gcloud_world : World :=
  {| os_path_isdir := os_path_isdir demo_world;
     os_listdir := os_listdir demo_world;
     file_contents := file_contents demo_world;
     spawn := fun h argv =>
       if String.eqb (hd "" argv) "gcloud"
       then inl (FileNotFoundError "[Errno 2] No such file or directory: 'gcloud'")
       else spawn demo_world h argv |}.

(** The same folder, listed in the opposite order. *)
Definition reversed_world : World :=
  {| os_path_isdir := os_path_isdir demo_world;
     os_listdir := fun _ _ => inr (rev demo_entries);
     file_contents := file_contents demo_world;
     spawn := spawn demo_world |}.

(** [gcloud] exits with 0 but prints only white space. *)
Definition blank_token_world : World :=
  {| os_path_isdir := os_path_isdir demo_world;
     os_listdir := os_listdir demo_world;
     file_contents := file_contents demo_world;
     spawn := fun h argv =>
       if String.eqb (hd "" argv) "gcloud"
       then inr (Completed 0 ("  " ++ Msg.nl) "")
       else spawn demo_world h argv |}.

(** A definition file with Windows line ends. *)
Definition crlf_text : string :=
  String "{" (String Py.cr (String Py.lf (String "}" EmptyString))).

Definition lf_text : string :=
  String "{" (String Py.lf (String "}" EmptyString)).

Definition crlf_world : World :=
  {| os_path_isdir := os_path_isdir demo_world;
     os_listdir := os_listdir demo_world;
     file_contents := fun _ _ => inr crlf_text;
     spawn := spawn demo_world |}.

(** A folder whose only entry is named [..json]. *)
Definition dot_stem_world : World :=
  {| os_path_isdir := os_path_isdir demo_world;
     os_listdir := fun _ _ => inr ["..json"];
     file_contents := file_contents demo_world;
     spawn := spawn demo_world |}.

(** * Properties *)

(** ** Examples of the resource ID *)

Example resource_id_my_data_contract :
  resource_id_of "my_data_contract.json" = "my-data-contract".
Proof. reflexivity. Qed.

Example resource_id_mixed :
  resource_id_of "__My  Aspect.v2__.json" = "my-aspect-v2".
Proof. reflexivity. Qed.

Example resource_id_symbols : resource_id_of "_-_.json" = "".
Proof. reflexivity. Qed.

Example splitext_dotfile : OsPath.splitext ".json" = (".json", "").
Proof. reflexivity. Qed.

(** A name made of dots before [json] has no extension for
    [os.path.splitext]: the whole name is the base name. *)
Example resource_id_dotfile : resource_id_of ".json" = "json".
Proof. reflexivity. Qed.

Example splitext_two_dots : OsPath.splitext "a.b.json" = ("a.b", ".json").
Proof. reflexivity. Qed.

Example runs_example :
  SlugSpec.runs "ab__c-" = [(true, "ab"); (false, "__"); (true, "c"); (false, "-")].
Proof. reflexivity. Qed.

(** ** Strings *)

Module PyFacts.

Lemma append_nil_r (s : string) : s ++ "" = s.
Proof. induction s as [|c r IH]; simpl; [reflexivity | now rewrite IH]. Qed.

Lemma append_assoc (a b c : string) : (a ++ b) ++ c = a ++ (b ++ c).
Proof. induction a as [|x a IH]; simpl; [reflexivity | now rewrite IH]. Qed.

Lemma endswith_refl (s : string) : Py.endswith s s = true.
Proof. destruct s; cbn [Py.endswith]; now rewrite String.eqb_refl. Qed.

Lemma endswith_app (p suf : string) : Py.endswith (p ++ suf) suf = true.
Proof.
  induction p as [|c p IH]; cbn [String.append Py.endswith].
  - apply endswith_refl.
  - destruct (String.eqb (String c (p ++ suf)) suf); [reflexivity | exact IH].
Qed.

Lemma endswith_inv (s suf : string) :
  Py.endswith s suf = true -> exists p, s = p ++ suf.
Proof.
  induction s as [|c r IH]; cbn [Py.endswith].
  - destruct (String.eqb "" suf) eqn:E; [|discriminate].
    apply String.eqb_eq in E. intros _. exists "". now subst.
  - destruct (String.eqb (String c r) suf) eqn:E.
    + apply String.eqb_eq in E. intros _. exists "". now subst.
    + intros H. destruct (IH H) as [p ->]. now exists (String c p).
Qed.

Lemma endswith_iff (s suf : string) :
  Py.endswith s suf = true <-> exists p, s = p ++ suf.
Proof.
  split; [apply endswith_inv | intros [p ->]; apply endswith_app].
Qed.

Lemma rfind_lower_bound (s : string) (c : ascii) : (-1 <= Py.rfind s c)%Z.
Proof.
  induction s as [|a r IH]; simpl; [lia|].
  destruct (0 <=? Py.rfind r c)%Z eqn:E; [apply Z.leb_le in E; lia|].
  destruct (Ascii.eqb a c); lia.
Qed.

Lemma rfind_absent (s : string) (c : ascii) :
  Py.all (fun a => negb (Ascii.eqb a c)) s = true -> Py.rfind s c = (-1)%Z.
Proof.
  induction s as [|a r IH]; simpl; [reflexivity|].
  intros H. apply andb_prop in H. destruct H as [Ha Hr].
  rewrite (IH Hr). simpl.
  destruct (Ascii.eqb a c); [discriminate | reflexivity].
Qed.

Lemma rfind_app (s t : string) (c : ascii) :
  Py.rfind (s ++ t) c =
  if (0 <=? Py.rfind t c)%Z then (Z.of_nat (String.length s) + Py.rfind t c)%Z
  else Py.rfind s c.
Proof.
  induction s as [|a r IH].
  - simpl. destruct (0 <=? Py.rfind t c)%Z eqn:E; [reflexivity|].
    apply Z.leb_gt in E. pose proof (rfind_lower_bound t c). lia.
  - cbn [String.append Py.rfind String.length]. rewrite IH.
    destruct (0 <=? Py.rfind t c)%Z eqn:E.
    + apply Z.leb_le in E.
      replace (0 <=? Z.of_nat (String.length r) + Py.rfind t c)%Z with true
        by (symmetry; apply Z.leb_le; lia).
      lia.
    + reflexivity.
Qed.

Lemma substring_0_0 (s : string) : substring 0 0 s = "".
Proof. destruct s; reflexivity. Qed.

Lemma slice_to_app (s t : string) :
  Py.slice_to (s ++ t) (Z.of_nat (String.length s)) = s.
Proof.
  unfold Py.slice_to. rewrite Nat2Z.id.
  induction s as [|a r IH]; simpl; [apply substring_0_0 | now rewrite IH].
Qed.

Lemma slice_from_app (s t : string) :
  Py.slice_from (s ++ t) (Z.of_nat (String.length s)) = t.
Proof.
  unfold Py.slice_from. rewrite Nat2Z.id.
  induction s as [|a r IH]; simpl.
  - rewrite Nat.sub_0_r. induction t as [|b t IHt]; simpl; [reflexivity | now rewrite IHt].
  - exact IH.
Qed.

Lemma slice1_cons (a : ascii) (p : string) (i : Z) :
  (0 <= i)%Z -> Py.slice1 (String a p) (i + 1) = Py.slice1 p i.
Proof.
  intros Hi. unfold Py.slice1.
  replace (Z.to_nat (i + 1)) with (S (Z.to_nat i)) by lia. reflexivity.
Qed.

Lemma has_non_dot_cons (a : ascii) (p : string) (n : nat) (i : Z) :
  (0 <= i)%Z ->
  OsPath.has_non_dot (String a p) (i + 1) n = OsPath.has_non_dot p i n.
Proof.
  revert i. induction n as [|n IH]; intros i Hi; simpl; [reflexivity|].
  rewrite slice1_cons by assumption.
  rewrite IH by lia. reflexivity.
Qed.

Lemma has_non_dot_prefix (s t : string) :
  OsPath.has_non_dot (s ++ t) 0 (String.length s) = negb (Py.all OsPath.is_extsep s).
Proof.
  induction s as [|a r IH]; [reflexivity|].
  cbn [String.append String.length OsPath.has_non_dot Py.all].
  unfold Py.slice1. simpl Z.to_nat. cbn [substring]. rewrite substring_0_0.
  rewrite (has_non_dot_cons a (r ++ t) (String.length r) 0) by lia.
  rewrite IH. unfold OsPath.is_extsep, OsPath.extsep.
  cbn [String.eqb]. destruct (Ascii.eqb a "."); reflexivity.
Qed.

(** [os.path.splitext] removes a final [.json] exactly when the part
    before it has a character other than a dot (and no separator):
    leading dots are part of the root, not of an extension. *)
Lemma splitext_json (stem : string) :
  Py.all (fun a => negb (OsPath.is_sep a)) stem = true ->
  Py.all OsPath.is_extsep stem = false ->
  OsPath.splitext (stem ++ ".json") = (stem, ".json").
Proof.
  intros Hsep Hdot. unfold OsPath.splitext.
  rewrite !rfind_app. change (Py.rfind ".json" OsPath.sep) with (-1)%Z.
  change (Py.rfind ".json" OsPath.extsep) with 0%Z. cbn [Z.leb Z.compare].
  rewrite (rfind_absent stem OsPath.sep) by exact Hsep.
  rewrite Z.add_0_r.
  replace (-1 <? Z.of_nat (String.length stem))%Z with true
    by (symmetry; apply Z.ltb_lt; lia).
  replace (Z.to_nat (Z.of_nat (String.length stem) - (-1 + 1)))
    with (String.length stem) by lia.
  change (-1 + 1)%Z with 0%Z.
  rewrite has_non_dot_prefix, Hdot. simpl negb. cbv iota.
  now rewrite slice_to_app, slice_from_app.
Qed.

Lemma splitext_all_dots (stem : string) :
  Py.all OsPath.is_extsep stem = true ->
  OsPath.splitext (stem ++ ".json") = (stem ++ ".json", "").
Proof.
  intros Hdot. unfold OsPath.splitext.
  rewrite !rfind_app. change (Py.rfind ".json" OsPath.sep) with (-1)%Z.
  change (Py.rfind ".json" OsPath.extsep) with 0%Z. cbn [Z.leb Z.compare].
  rewrite (rfind_absent stem OsPath.sep).
  - rewrite Z.add_0_r.
    replace (-1 <? Z.of_nat (String.length stem))%Z with true
      by (symmetry; apply Z.ltb_lt; lia).
    replace (Z.to_nat (Z.of_nat (String.length stem) - (-1 + 1)))
      with (String.length stem) by lia.
    change (-1 + 1)%Z with 0%Z.
    now rewrite has_non_dot_prefix, Hdot.
  - clear -Hdot. induction stem as [|a r IH]; [reflexivity|].
    simpl in *. apply andb_prop in Hdot. destruct Hdot as [Ha Hr].
    rewrite (IH Hr), andb_true_r. unfold OsPath.is_extsep in Ha.
    apply Ascii.eqb_eq in Ha. now subst a.
Qed.

(** Lowercasing lands in [a-z0-9] exactly from [A-Za-z0-9]. *)
Lemma lower_char_alnum (c : ascii) :
  Py.is_lower_alnum (Py.lower_char c) = Py.is_alnum c.
Proof. destruct c as [[] [] [] [] [] [] [] []]; reflexivity. Qed.

Lemma lower_all_non_alnum (s : string) :
  Py.all (fun c => negb (Py.is_alnum c)) s = true ->
  Py.all (fun c => negb (Py.is_lower_alnum c)) (Py.lower s) = true.
Proof.
  induction s as [|c r IH]; simpl; [reflexivity|].
  intros H. apply andb_prop in H. destruct H as [Hc Hr].
  now rewrite lower_char_alnum, Hc, IH.
Qed.

End PyFacts.

(** ** The scanner of [re.sub] against the runs of the specification *)

Module SlugFacts.

Import SlugSpec.

(** The runs partition the string. *)
Lemma runs_flatten (s : string) : flatten (map snd (runs s)) = s.
Proof.
  induction s as [|c r IH]; [reflexivity|].
  cbn [runs]. destruct (runs r) as [|[k' run] rest].
  - simpl in *. now rewrite <- IH.
  - destruct (Bool.eqb (Py.is_lower_alnum c) k'); simpl in *; now rewrite <- IH.
Qed.

Lemma runs_uniform (s : string) : Forall uniform (runs s).
Proof.
  induction s as [|c r IH]; [constructor|].
  cbn [runs]. destruct (runs r) as [|[k' run] rest].
  - constructor; [|constructor]. split; [discriminate|].
    simpl. now rewrite Bool.eqb_reflx.
  - destruct (Bool.eqb (Py.is_lower_alnum c) k') eqn:E.
    + inversion IH as [|? ? [Hne Hall] Hrest]; subst.
      constructor; [|assumption]. split; [discriminate|].
      simpl in *. rewrite Bool.eqb_reflx. simpl.
      apply Bool.eqb_prop in E. now rewrite E.
    + constructor; [|assumption]. split; [discriminate|].
      simpl. now rewrite Bool.eqb_reflx.
Qed.

Lemma runs_alternating (s : string) : alternating (runs s).
Proof.
  induction s as [|c r IH]; [exact I|].
  cbn [runs]. destruct (runs r) as [|[k' run] rest]; [exact I|].
  destruct (Bool.eqb (Py.is_lower_alnum c) k') eqn:E.
  - apply Bool.eqb_prop in E. rewrite E. destruct rest; [exact I|]. exact IH.
  - split; [|exact IH]. simpl. intros H. rewrite H, Bool.eqb_reflx in E. discriminate.
Qed.

(** The scanner of [re.sub] computes the run-by-run replacement. *)
Lemma sub_from_runs (in_run : bool) (s : string) :
  Re.sub_from in_run s =
  flatten (map replace_run (if in_run then after_match (runs s) else runs s)).
Proof.
  revert in_run. induction s as [|c r IH]; intros in_run.
  - now destruct in_run.
  - cbn [Re.sub_from runs].
    destruct (Py.is_lower_alnum c) eqn:Hc.
    + rewrite (IH false).
      destruct (runs r) as [|[[] run] rest]; destruct in_run; reflexivity.
    + rewrite (IH true).
      destruct (runs r) as [|[[] run] rest]; destruct in_run; reflexivity.
Qed.

Lemma sub_non_alnum_hyphenate (s : string) : Re.sub_non_alnum s = hyphenate s.
Proof. apply (sub_from_runs false). Qed.

(** The resource ID of any name is the trimmed slug of its base name. *)
Lemma resource_id_of_base_name (filename : string) :
  resource_id_of filename = trimmed_slug (base_name filename).
Proof.
  unfold resource_id_of, trimmed_slug, slug. now rewrite sub_non_alnum_hyphenate.
Qed.

(** A string without any character of [a-z0-9] is one match of the
    pattern: nothing is written once the match has begun, and a single
    hyphen is written for it otherwise. *)
Lemma sub_from_inside_match (s : string) :
  Py.all (fun c => negb (Py.is_lower_alnum c)) s = true ->
  Re.sub_from true s = "".
Proof.
  induction s as [|c r IH]; intros H; [reflexivity|].
  simpl in H. apply andb_prop in H. destruct H as [Hc Hr].
  cbn [Re.sub_from]. destruct (Py.is_lower_alnum c); [discriminate|].
  apply IH, Hr.
Qed.

Lemma sub_non_alnum_no_alnum (s : string) :
  Py.all (fun c => negb (Py.is_lower_alnum c)) s = true ->
  Re.sub_non_alnum s = "" \/ Re.sub_non_alnum s = "-".
Proof.
  unfold Re.sub_non_alnum. destruct s as [|c r]; intros H; [now left|].
  simpl in H. apply andb_prop in H. destruct H as [Hc Hr].
  cbn [Re.sub_from]. destruct (Py.is_lower_alnum c); [discriminate|].
  right. now rewrite sub_from_inside_match.
Qed.

End SlugFacts.

(** ** [sorted]: ascending code-point order, whatever the input order *)

Module SortFacts.

Lemma leb_empty_l (s : string) : String.leb "" s = true.
Proof. now destruct s. Qed.

Lemma leb_refl (s : string) : String.leb s s = true.
Proof.
  unfold String.leb. induction s as [|c r IH]; [reflexivity|].
  simpl. unfold Ascii.compare. now rewrite N.compare_refl.
Qed.

Lemma leb_trans (a b c : string) :
  String.leb a b = true -> String.leb b c = true -> String.leb a c = true.
Proof.
  unfold String.leb. revert b c.
  induction a as [|x a IH]; intros b c Hab Hbc.
  - now destruct c.
  - destruct b as [|y b]; [discriminate|].
    destruct c as [|z c]; [discriminate|].
    simpl in *. unfold Ascii.compare in *.
    destruct (N.compare_spec (N_of_ascii x) (N_of_ascii y)) as [Exy|Lxy|Gxy];
      try discriminate;
      destruct (N.compare_spec (N_of_ascii y) (N_of_ascii z)) as [Eyz|Lyz|Gyz];
      try discriminate.
    + rewrite Exy, Eyz, N.compare_refl. now apply (IH b c).
    + rewrite Exy. now apply N.compare_lt_iff in Lyz as ->.
    + rewrite <- Eyz. now apply N.compare_lt_iff in Lxy as ->.
    + assert (L : (N_of_ascii x < N_of_ascii z)%N) by lia.
      now apply N.compare_lt_iff in L as ->.
Qed.

Lemma insert_sorted_perm (x : string) (l : list string) :
  Permutation (insert_sorted x l) (x :: l).
Proof.
  induction l as [|y r IH]; simpl; [apply Permutation_refl|].
  destruct (String.leb x y); [apply Permutation_refl|].
  eapply perm_trans; [apply perm_skip, IH | apply perm_swap].
Qed.

Lemma sorted_perm (l : list string) : Permutation (sorted l) l.
Proof.
  induction l as [|x r IH]; simpl; [constructor|].
  eapply perm_trans; [apply insert_sorted_perm | now apply perm_skip].
Qed.

Lemma insert_sorted_HdRel (a x : string) (l : list string) :
  str_le a x -> HdRel str_le a l -> HdRel str_le a (insert_sorted x l).
Proof.
  intros Hax Hl. destruct l as [|y r]; simpl; [now constructor|].
  destruct (String.leb x y); constructor; [assumption|].
  now inversion Hl.
Qed.

Lemma insert_sorted_Sorted (x : string) (l : list string) :
  Sorted str_le l -> Sorted str_le (insert_sorted x l).
Proof.
  induction l as [|y r IH]; intros Hs; simpl; [repeat constructor|].
  destruct (String.leb x y) eqn:E.
  - constructor; [assumption | now constructor].
  - apply Sorted_inv in Hs. destruct Hs as [Hr Hy].
    constructor; [now apply IH|].
    apply insert_sorted_HdRel; [|assumption].
    destruct (String.leb_total x y) as [H|H]; [congruence | exact H].
Qed.

Lemma sorted_Sorted (l : list string) : Sorted str_le (sorted l).
Proof.
  induction l as [|x r IH]; simpl; [constructor | now apply insert_sorted_Sorted].
Qed.

Lemma sorted_StronglySorted (l : list string) : StronglySorted str_le (sorted l).
Proof.
  apply Sorted_StronglySorted; [|apply sorted_Sorted].
  intros a b c. apply leb_trans.
Qed.

(** An ascending list is determined by its elements. *)
Lemma ascending_unique (l1 l2 : list string) :
  StronglySorted str_le l1 -> StronglySorted str_le l2 ->
  Permutation l1 l2 -> l1 = l2.
Proof.
  revert l2. induction l1 as [|a l1 IH]; intros l2 H1 H2 P.
  - now apply Permutation_nil in P.
  - destruct l2 as [|b l2].
    + apply Permutation_sym, Permutation_nil in P. discriminate.
    + apply StronglySorted_inv in H1. destruct H1 as [H1 Fa].
      apply StronglySorted_inv in H2. destruct H2 as [H2 Fb].
      assert (Eab : a = b).
      { assert (Ia : In a (b :: l2)) by (eapply Permutation_in; [exact P | now left]).
        assert (Ib : In b (a :: l1))
          by (eapply Permutation_in; [apply Permutation_sym, P | now left]).
        rewrite Forall_forall in Fa, Fb.
        destruct Ia as [->|Ia]; [reflexivity|].
        destruct Ib as [->|Ib]; [reflexivity|].
        apply String.leb_antisym; [apply Fa, Ib | apply Fb, Ia]. }
      subst b. f_equal. apply IH; try assumption.
      eapply Permutation_cons_inv, P.
Qed.

Lemma sorted_order_independent (l1 l2 : list string) :
  Permutation l1 l2 -> sorted l1 = sorted l2.
Proof.
  intros P. apply ascending_unique; try apply sorted_StronglySorted.
  eapply perm_trans; [apply sorted_perm|].
  eapply perm_trans; [exact P | apply Permutation_sym, sorted_perm].
Qed.

Lemma filter_perm {A} (p : A -> bool) (l1 l2 : list A) :
  Permutation l1 l2 -> Permutation (filter p l1) (filter p l2).
Proof.
  induction 1 as [|x l l' _ IH|x y l|l l' l'' _ IH1 _ IH2]; simpl.
  - constructor.
  - destruct (p x); [now apply perm_skip | assumption].
  - destruct (p x), (p y); try apply Permutation_refl. apply perm_swap.
  - eapply perm_trans; eassumption.
Qed.

End SortFacts.

(** ** One call of [create_metadata_resource] *)

Section FileFacts.

Variable w : World.
Variables pid loc ty rid path : string.

Lemma api_url_template_eq (project_id location resource_id : string) :
  api_url_of project_id location "aspectTypes" resource_id
  = url_template project_id location resource_id.
Proof. reflexivity. Qed.

Lemma fetch_access_token_emits (h : trace) :
  emitted (fetch_access_token w h) = [Run access_token_command].
Proof.
  unfold fetch_access_token, bind, subprocess_run, emitted.
  destruct (spawn w h access_token_command) as [e|p]; [reflexivity|].
  destruct (returncode p =? 0)%Z; [|reflexivity].
  destruct (Py.is_empty (Py.strip Py.is_space (stdout p))); reflexivity.
Qed.

Lemma fetch_access_token_split (h : trace) :
  fetch_access_token w h
  = ([Run access_token_command], outcome (fetch_access_token w h)).
Proof.
  rewrite <- (fetch_access_token_emits h). unfold emitted, outcome.
  now destruct (fetch_access_token w h).
Qed.

Lemma subprocess_run_split (argv : list string) (h : trace) :
  subprocess_run w argv h = ([Run argv], outcome (subprocess_run w argv h)).
Proof. reflexivity. Qed.

(** Every call goes one of these ways. *)
Lemma create_metadata_resource_run (h : trace) :
  let r := create_metadata_resource w pid loc ty rid path h in
  file_run w pid loc ty rid path h (emitted r) (outcome r).
Proof.
  cbv zeta.
  unfold create_metadata_resource.
  cbv beta iota delta [bind try print open_read emitted outcome fst snd].
  change (h ++ [Print (Msg.processing path ty rid)])%list with (at_open ty rid path h).
  destruct (read_text w (at_open ty rid path h) path) as [e|definition] eqn:Hread.
  - destruct e; cbn [app].
    + eapply run_missing; eassumption.
    + eapply run_unreadable; [exact Hread | discriminate].
    + eapply run_unreadable; [exact Hread | discriminate].
    + eapply run_unreadable; [exact Hread | discriminate].
  - change (at_open ty rid path h ++ [OpenRead path])%list with (at_token ty rid path h).
    rewrite (fetch_access_token_split (at_token ty rid path h)).
    fold (token_result w ty rid path h).
    destruct (token_result w ty rid path h) as [e|access_token] eqn:Htok.
    + destruct e; cbn [app].
      * eapply run_token_raised; [exact Hread | exact Htok | discriminate..].
      * eapply run_token_exit; [exact Hread | exact Htok].
      * eapply run_token_value; [exact Hread | exact Htok].
      * eapply run_token_raised; [exact Hread | exact Htok | discriminate..].
    + change (at_token ty rid path h ++ [Run access_token_command])%list
        with (at_curl ty rid path h).
      fold (api_url pid loc ty rid).
      rewrite (subprocess_run_split _ (at_curl ty rid path h)).
      fold (curl_result w ty rid path h
              (curl_command (api_url pid loc ty rid) access_token definition)).
      destruct (curl_result w ty rid path h
                  (curl_command (api_url pid loc ty rid) access_token definition))
        as [e|result] eqn:Hcurl.
      * destruct e; cbn [app].
        -- eapply run_curl_unexpected; [exact Hread | exact Htok | exact Hcurl | discriminate].
        -- eapply run_curl_exit; [exact Hread | exact Htok | exact Hcurl].
        -- eapply run_curl_unexpected; [exact Hread | exact Htok | exact Hcurl | discriminate].
        -- eapply run_curl_unexpected; [exact Hread | exact Htok | exact Hcurl | discriminate].
      * cbn [app]. eapply run_created; [exact Hread | exact Htok | exact Hcurl].
Qed.

Lemma token_result_spawn (h : trace) :
  token_result w ty rid path h =
  match spawn w (at_token ty rid path h) access_token_command with
  | inl e => inl e
  | inr p =>
      if (returncode p =? 0)%Z then
        if Py.is_empty (Py.strip Py.is_space (stdout p))
        then inl (ValueError Msg.empty_token)
        else inr (Py.strip Py.is_space (stdout p))
      else inl (CalledProcessError (returncode p) access_token_command
                  (stdout p) (stderr p))
  end.
Proof.
  unfold token_result, fetch_access_token, bind, subprocess_run, outcome.
  destruct (spawn w (at_token ty rid path h) access_token_command) as [e|p];
    [reflexivity|].
  destruct (returncode p =? 0)%Z; [|reflexivity].
  destruct (Py.is_empty (Py.strip Py.is_space (stdout p))); reflexivity.
Qed.

(** A call makes no create request when the read or the token fails,
    and exactly one otherwise; the one request carries the text that
    was read and the token that was just fetched. *)
Lemma file_run_posts (h : trace) (t : trace) (r : exn + unit) :
  file_run w pid loc ty rid path h t r ->
  (((exists e, read_text w (at_open ty rid path h) path = inl e) \/
    (exists e, token_result w ty rid path h = inl e)) /\ posts t = [])
  \/ exists definition access_token,
       read_text w (at_open ty rid path h) path = inr definition /\
       token_result w ty rid path h = inr access_token /\
       posts t = [Run (curl_command (api_url pid loc ty rid) access_token definition)].
Proof.
  intros R. destruct R;
    try (left; split; [eauto | reflexivity]);
    right; eauto.
Qed.

(** The token is requested exactly once by a call whose read succeeds,
    and not at all otherwise. *)
Lemma file_run_token_fetches (h : trace) (t : trace) (r : exn + unit) :
  file_run w pid loc ty rid path h t r ->
  token_fetches t =
  match read_text w (at_open ty rid path h) path with
  | inl _ => []
  | inr _ => [Run access_token_command]
  end.
Proof.
  intros R. destruct R;
    match goal with H : read_text _ _ _ = _ |- _ => rewrite H end; reflexivity.
Qed.

(** Each call reads its file exactly once. *)
Lemma file_run_reads (h : trace) (t : trace) (r : exn + unit) :
  file_run w pid loc ty rid path h t r -> reads t = [OpenRead path].
Proof. intros R. destruct R; reflexivity. Qed.

(** Only a token failure that is neither a non-zero exit nor a
    [ValueError] leaves the call by an exception. *)
Lemma file_run_raises (h : trace) (t : trace) (e : exn) :
  file_run w pid loc ty rid path h t (inl e) ->
  token_result w ty rid path h = inl e /\
  (forall rc cmd out err, e <> CalledProcessError rc cmd out err) /\
  (forall msg, e <> ValueError msg) /\
  t = token_requested ty rid path.
Proof. intros R. inversion R; subst. repeat split; assumption. Qed.

(** The only commands that a call runs are the token command and the
    create request. *)
Lemma file_run_commands (h : trace) (t : trace) (r : exn + unit) (argv : list string) :
  file_run w pid loc ty rid path h t r ->
  In (Run argv) t ->
  argv = access_token_command \/
  exists access_token definition,
    argv = curl_command (api_url pid loc ty rid) access_token definition.
Proof.
  intros R Hin.
  destruct R; cbn [app started token_requested In] in Hin;
    repeat (destruct Hin as [Hin|Hin]; [try discriminate Hin|]);
    try contradiction;
    try (injection Hin as <-; now left);
    try (injection Hin as <-; right; eauto).
Qed.

End FileFacts.

(** ** The loop of [main] *)

Section LoopFacts.

Variable w : World.
Variable args : Args.

Lemma process_file_skip (filename : string) (h : trace) :
  resource_id_of filename = "" ->
  process_file w args "aspectTypes" filename h
  = ([Print (Msg.skipping filename)], inr tt).
Proof. intros E. unfold process_file. now rewrite E. Qed.

Lemma process_file_create (filename : string) (h : trace) :
  resource_id_of filename <> "" ->
  process_file w args "aspectTypes" filename h
  = create_metadata_resource w (project_id args) (location args) "aspectTypes"
      (resource_id_of filename) (path_of args filename) h.
Proof.
  intros E. unfold process_file.
  destruct (resource_id_of filename); [contradiction | reflexivity].
Qed.

(** An iteration either skips the file with the warning or is one call
    of [create_metadata_resource]. *)
Lemma process_file_cases (filename : string) (h : trace) :
  let r := process_file w args "aspectTypes" filename h in
  (resource_id_of filename = "" /\ r = ([Print (Msg.skipping filename)], inr tt))
  \/
  (resource_id_of filename <> "" /\
   file_run w (project_id args) (location args) "aspectTypes"
     (resource_id_of filename) (path_of args filename) h (emitted r) (outcome r)).
Proof.
  cbv zeta. destruct (String.eqb_spec (resource_id_of filename) "") as [E|E].
  - left. split; [assumption | now apply process_file_skip].
  - right. split; [assumption|]. rewrite process_file_create by assumption.
    apply create_metadata_resource_run.
Qed.

Lemma for_each_cons {A} (x : A) (rest : list A) (body : A -> IO unit) (h : trace) :
  for_each (x :: rest) body h =
  match outcome (body x h) with
  | inl e => (emitted (body x h), inl e)
  | inr _ =>
      ((emitted (body x h)
        ++ emitted (for_each rest body (h ++ emitted (body x h))))%list,
       outcome (for_each rest body (h ++ emitted (body x h))%list))
  end.
Proof.
  cbn [for_each]. unfold bind, emitted, outcome.
  destruct (body x h) as [t1 [e|[]]]; [reflexivity|]. cbn [fst snd].
  now destruct (for_each rest body (h ++ t1)%list).
Qed.

(** Every file that is read is one of the files of the loop. *)
Lemma run_files_reads (files : list string) (h : trace) (p : string) :
  In (OpenRead p) (emitted (run_files w args files h)) ->
  exists f, In f files /\ p = path_of args f.
Proof.
  revert h. induction files as [|f rest IH]; intros h Hin; [contradiction|].
  unfold run_files in Hin. rewrite for_each_cons in Hin.
  assert (Hseg : In (OpenRead p) (emitted (process_file w args "aspectTypes" f h)) ->
                 p = path_of args f).
  { intros Hs. destruct (process_file_cases f h) as [[_ Hskip]|[_ R]].
    - rewrite Hskip in Hs. destruct Hs as [Hs|[]]. discriminate.
    - assert (Hr : In (OpenRead p) (reads (emitted (process_file w args "aspectTypes" f h))))
        by (apply filter_In; now split).
      rewrite (file_run_reads _ _ _ _ _ _ _ _ _ R) in Hr.
      destruct Hr as [Hr|[]]. now injection Hr. }
  destruct (outcome (process_file w args "aspectTypes" f h)); cbn [emitted fst] in Hin.
  - exists f. split; [now left | now apply Hseg].
  - apply in_app_or in Hin. destruct Hin as [Hin|Hin].
    + exists f. split; [now left | now apply Hseg].
    + destruct (IH _ Hin) as (f' & Hf' & ->). exists f'. split; [now right | reflexivity].
Qed.

Lemma main_loop (h : trace) (entries : list string) :
  os_path_isdir w h (definitions_dir args) = true ->
  os_listdir w (h ++ [IsDir (definitions_dir args)])%list (definitions_dir args) = inr entries ->
  json_files_of entries <> [] ->
  main w args h =
  ((prelude args entries
    ++ emitted (run_files w args (sorted (json_files_of entries)) (h ++ prelude args entries)%list))%list,
   outcome (run_files w args (sorted (json_files_of entries)) (h ++ prelude args entries)%list)).
Proof.
  intros Hdir Hlist Hne. unfold main.
  cbv beta iota delta [bind isdir listdir print].
  rewrite Hdir. cbn [negb]. rewrite Hlist. cbv zeta.
  destruct (json_files_of entries) as [|f fs] eqn:Ej; [contradiction|].
  unfold prelude. rewrite Ej. fold (run_files w args (sorted (f :: fs))).
  rewrite <- !app_assoc. cbn [app].
  unfold emitted, outcome.
  now destruct (run_files w args (sorted (f :: fs)) _).
Qed.

Lemma main_dir_missing (h : trace) :
  os_path_isdir w h (definitions_dir args) = false ->
  main w args h =
  ([IsDir (definitions_dir args); Print (Msg.dir_not_found (definitions_dir args))],
   inr tt).
Proof.
  intros Hdir. unfold main.
  cbv beta iota delta [bind isdir print]. now rewrite Hdir.
Qed.

Lemma main_no_json (h : trace) (entries : list string) :
  os_path_isdir w h (definitions_dir args) = true ->
  os_listdir w (h ++ [IsDir (definitions_dir args)])%list (definitions_dir args) = inr entries ->
  json_files_of entries = [] ->
  main w args h =
  ([IsDir (definitions_dir args); ListDir (definitions_dir args);
    Print (Msg.no_json_files (definitions_dir args))], inr tt).
Proof.
  intros Hdir Hlist He. unfold main.
  cbv beta iota delta [bind isdir listdir print].
  rewrite Hdir. cbn [negb]. rewrite Hlist. cbv zeta. now rewrite He.
Qed.

Lemma reads_app (t1 t2 : trace) : reads (t1 ++ t2)%list = (reads t1 ++ reads t2)%list.
Proof. apply filter_app. Qed.

(** The files are read once each, in the order of the list, up to the
    point where the loop ends. *)
Lemma run_files_reads_in_order (files : list string) (h : trace) :
  exists k,
    reads (emitted (run_files w args files h))
    = map (fun f => OpenRead (path_of args f)) (firstn k (filter has_id files)).
Proof.
  revert h. induction files as [|f rest IH]; intros h; [now exists 0|].
  unfold run_files. rewrite for_each_cons. fold (run_files w args rest).
  destruct (process_file_cases f h) as [[E Hskip]|[E R]].
  - rewrite Hskip. cbn [outcome emitted fst snd app].
    destruct (IH (h ++ [Print (Msg.skipping f)])%list) as [k Hk].
    exists k. cbn [filter]. unfold has_id at 1. rewrite E. exact Hk.
  - assert (Hid : has_id f = true).
    { unfold has_id. destruct (resource_id_of f); [contradiction | reflexivity]. }
    pose proof (file_run_reads _ _ _ _ _ _ _ _ _ R) as Hr.
    cbn [filter]. rewrite Hid.
    destruct (outcome (process_file w args "aspectTypes" f h)).
    + exists 1. cbn [emitted fst]. rewrite Hr. reflexivity.
    + destruct (IH (h ++ emitted (process_file w args "aspectTypes" f h))%list)
        as [k Hk].
      exists (S k). cbn [emitted fst]. rewrite reads_app, Hr.
      cbn [firstn map app]. f_equal. exact Hk.
Qed.

(** The loop runs nothing but token commands and create requests. *)
Lemma run_files_commands (files : list string) (h : trace) (argv : list string) :
  In (Run argv) (emitted (run_files w args files h)) ->
  argv = access_token_command \/
  exists api_url access_token definition,
    argv = curl_command api_url access_token definition.
Proof.
  revert h. induction files as [|f rest IH]; intros h Hin; [contradiction|].
  unfold run_files in Hin. rewrite for_each_cons in Hin.
  assert (Hseg : In (Run argv) (emitted (process_file w args "aspectTypes" f h)) ->
                 argv = access_token_command \/
                 exists api_url access_token definition,
                   argv = curl_command api_url access_token definition).
  { intros Hs. destruct (process_file_cases f h) as [[_ Hskip]|[_ R]].
    - rewrite Hskip in Hs. destruct Hs as [Hs|[]]. discriminate.
    - destruct (file_run_commands _ _ _ _ _ _ _ _ _ _ R Hs)
        as [->|(access_token & definition & ->)]; [now left | right; eauto]. }
  destruct (outcome (process_file w args "aspectTypes" f h)); cbn [emitted fst] in Hin.
  - now apply Hseg.
  - apply in_app_or in Hin. destruct Hin as [Hin|Hin]; [now apply Hseg | now apply (IH _ Hin)].
Qed.

(** The reads of a loop, exactly: when the loop returns, every file
    with an ID was read, in the order of the list; when it raises, the
    files with an ID were read in that order up to the one whose
    iteration raised. *)
Lemma run_files_reads_exact (files : list string) (h : trace) :
  match outcome (run_files w args files h) with
  | inr _ =>
      reads (emitted (run_files w args files h))
      = map (fun f => OpenRead (path_of args f)) (filter has_id files)
  | inl _ =>
      exists pre f post,
        filter has_id files = (pre ++ f :: post)%list /\
        reads (emitted (run_files w args files h))
        = map (fun f => OpenRead (path_of args f)) (pre ++ [f])%list
  end.
Proof.
  revert h. induction files as [|f rest IH]; intros h; [reflexivity|].
  unfold run_files. rewrite for_each_cons. fold (run_files w args rest).
  destruct (process_file_cases f h) as [[E Hskip]|[E R]].
  - assert (Hid : has_id f = false) by (unfold has_id; now rewrite E).
    rewrite Hskip. cbn [outcome emitted fst snd filter]. rewrite Hid.
    specialize (IH (h ++ [Print (Msg.skipping f)])%list).
    destruct (outcome (run_files w args rest (h ++ [Print (Msg.skipping f)])%list));
      cbn [app reads filter is_read]; exact IH.
  - assert (Hid : has_id f = true)
      by (unfold has_id; destruct (resource_id_of f); [contradiction | reflexivity]).
    pose proof (file_run_reads _ _ _ _ _ _ _ _ _ R) as Hr.
    cbn [filter]. rewrite Hid.
    destruct (outcome (process_file w args "aspectTypes" f h)) as [e|u].
    + cbn [outcome emitted fst snd]. exists [], f, (filter has_id rest).
      split; [reflexivity|]. now rewrite Hr.
    + specialize (IH (h ++ emitted (process_file w args "aspectTypes" f h))%list).
      cbn [outcome emitted fst snd].
      destruct (outcome (run_files w args rest
                           (h ++ emitted (process_file w args "aspectTypes" f h))%list)).
      * destruct IH as (pre & g & post & Hf & Hreads).
        exists (f :: pre), g, post. split; [now rewrite Hf|].
        rewrite reads_app, Hr, Hreads. reflexivity.
      * rewrite reads_app, Hr, IH. reflexivity.
Qed.

End LoopFacts.

(** ** Claims about the resource ID *)

(** C1 (as stated, refuted): the resource ID is not the plain slug of the
    stem; for [_a.json] the slug of the stem is [-a] and the ID is [a]. *)
Lemma resource_id_differs_from_plain_slug :
  resource_id_of "_a.json" = "a" /\
  SlugSpec.slug "_a" = "-a" /\
  resource_id_of "_a.json" <> SlugSpec.slug "_a".
Proof. repeat split. discriminate. Qed.

(** C1 (amended): for a filename [stem.json] whose stem has no path
    separator and has a character other than a dot, the resource ID is
    the stem lowercased, with every maximal run of characters outside
    [a-z0-9] replaced by one hyphen, and with the leading and trailing
    hyphens removed. *)
Theorem resource_id_is_trimmed_slug (stem : string) :
  Py.all (fun c => negb (OsPath.is_sep c)) stem = true ->
  Py.all OsPath.is_extsep stem = false ->
  resource_id_of (stem ++ ".json") = Py.strip Py.is_hyphen (SlugSpec.slug stem).
Proof.
  intros Hsep Hdot.
  rewrite SlugFacts.resource_id_of_base_name. unfold SlugSpec.trimmed_slug.
  unfold base_name. now rewrite PyFacts.splitext_json.
Qed.

Lemma resource_id_is_trimmed_slug_witness :
  Py.all (fun c => negb (OsPath.is_sep c)) "_My Data.v2_" = true /\
  Py.all OsPath.is_extsep "_My Data.v2_" = false /\
  resource_id_of ("_My Data.v2_" ++ ".json")
  = Py.strip Py.is_hyphen (SlugSpec.slug "_My Data.v2_").
Proof.
  split; [reflexivity|]. split; [reflexivity|].
  apply (resource_id_is_trimmed_slug "_My Data.v2_"); reflexivity.
Defined.

(** A filename whose base name, as [os.path.splitext] leaves it, has
    no character of [A-Za-z0-9] gets the empty resource ID, and its
    iteration only prints the warning: the file is not read and no
    create request is made. *)
Lemma non_alnum_stem_is_skipped
    (w : World) (args : Args) (filename : string) (h : trace) :
  Py.all (fun c => negb (Py.is_alnum c)) (base_name filename) = true ->
  resource_id_of filename = "" /\
  process_file w args "aspectTypes" filename h
  = ([Print (Msg.skipping filename)], inr tt) /\
  reads (emitted (process_file w args "aspectTypes" filename h)) = [] /\
  posts (emitted (process_file w args "aspectTypes" filename h)) = [].
Proof.
  intros H.
  assert (E : resource_id_of filename = "").
  { unfold resource_id_of.
    destruct (SlugFacts.sub_non_alnum_no_alnum (Py.lower (base_name filename)))
      as [-> | ->]; [now apply PyFacts.lower_all_non_alnum | reflexivity..]. }
  split; [exact E|].
  rewrite (process_file_skip w args filename h E). repeat split.
Qed.

(** C3 (the code at the failing input): the entry [..json] ends with
    [.json] and what is left without that extension, [.], has no
    alphanumeric character; but [os.path.splitext] takes the leading
    dots for part of the root and removes nothing, so the resource ID
    is [json]: the file is not skipped, it is read and posted. *)
Theorem dot_stem_is_not_skipped :
  "..json" = "." ++ ".json" /\
  Py.all (fun c => negb (Py.is_alnum c)) "." = true /\
  is_json "..json" = true /\
  base_name "..json" = "..json" /\
  resource_id_of "..json" = "json" /\
  emitted (main dot_stem_world demo_args [])
  = [IsDir "defs"; ListDir "defs";
     Print "Found 1 JSON definition file(s) in 'defs'.";
     Print "Processing 'defs/..json' for aspectTypes ID: 'json'...";
     OpenRead "defs/..json";
     Run ["gcloud"; "auth"; "print-access-token"];
     Run ["curl"; "--silent"; "--fail"; "--location";
          "https://dataplex.googleapis.com/v1/projects/proj/locations/global/aspectTypes?aspect_type_id=json";
          "--header"; "Content-Type: application/json";
          "--header"; "Authorization: Bearer ya29.t5";
          "--data"; "{defs/..json}"];
     Print "Successfully created aspectTypes with ID: json";
     Print "{}"].
Proof. repeat split. Qed.

(** ** Claims about the create request *)

Section Requests.

Variable w : World.
Variable args : Args.

(** The two printed lines that follow a successful [curl] differ from
    every line printed on the other paths. *)
Lemma created_line_only_after_post (pid loc rid path : string)
    (h t : trace) (r : exn + unit) :
  file_run w pid loc "aspectTypes" rid path h t r ->
  In (Print (Msg.created "aspectTypes" rid)) t ->
  exists definition access_token,
    read_text w (at_open "aspectTypes" rid path h) path = inr definition /\
    token_result w "aspectTypes" rid path h = inr access_token /\
    posts t = [Run (curl_command (api_url pid loc "aspectTypes" rid)
                      access_token definition)].
Proof.
  intros R Hin.
  destruct R; try (exists definition, access_token; now repeat split);
    exfalso; cbn [app started token_requested In] in Hin;
    repeat (destruct Hin as [Hin|Hin]; [try discriminate Hin|]);
    try contradiction; try (cbv in Hin; discriminate Hin).
Qed.


(** Text without carriage returns is read as it is. *)
Lemma universal_newlines_fixed (s : string) :
  Py.all (fun c => negb (Py.is_cr c)) s = true -> Py.universal_newlines s = s.
Proof.
  induction s as [|c r IH]; [reflexivity|].
  intros H. cbn [Py.all] in H. apply andb_prop in H. destruct H as [Hc Hr].
  cbn [Py.universal_newlines]. apply negb_true_iff in Hc. rewrite Hc.
  now rewrite (IH Hr).
Qed.


(** C10: an iteration that fails before the network call makes no
    create request. *)
Theorem no_post_after_early_failure (filename : string) (h : trace) :
  fails_before_post w args filename h ->
  posts (emitted (process_file w args "aspectTypes" filename h)) = [].
Proof.
  intros Hfail.
  destruct (process_file_cases w args filename h) as [[E Hskip]|[E R]].
  - now rewrite Hskip.
  - destruct (file_run_posts _ _ _ _ _ _ _ _ _ R)
      as [[_ Hnone]|(definition & access_token & Hread & Htok & _)];
      [exact Hnone | exfalso].
    rewrite token_result_spawn in Htok.
    destruct Hfail as [[e He]|[[e He]|(p & Hp & Hbad)]].
    + unfold file_text, reading_at in He. congruence.
    + unfold token_answer, fetching_at in He. rewrite He in Htok. discriminate.
    + unfold token_answer, fetching_at in Hp. rewrite Hp in Htok.
      destruct (returncode p =? 0)%Z eqn:Hrc; [|discriminate].
      destruct Hbad as [Hbad|Hbad].
      * apply Z.eqb_eq in Hrc. contradiction.
      * rewrite Hbad in Htok. discriminate.
Qed.

End Requests.




Lemma no_post_after_early_failure_witness :
  fails_before_post unreadable_world demo_args "b.json" [] /\
  posts (emitted (process_file unreadable_world demo_args "aspectTypes" "b.json" [])) = [].
Proof.
  assert (Hfail : fails_before_post unreadable_world demo_args "b.json" []).
  { left. eexists. reflexivity. }
  split; [exact Hfail|].
  exact (no_post_after_early_failure unreadable_world demo_args "b.json" [] Hfail).
Defined.

(** ** Claims about the order of events *)

Section Sequence.

Variable w : World.
Variable args : Args.

Lemma curl_result_spawn (ty rid path : string) (h : trace) (command : list string) :
  curl_result w ty rid path h command =
  match spawn w (at_curl ty rid path h) command with
  | inl e => inl e
  | inr p =>
      if (returncode p =? 0)%Z then inr p
      else inl (CalledProcessError (returncode p) command (stdout p) (stderr p))
  end.
Proof. reflexivity. Qed.


End Sequence.


(** ** Claims about the selection and the order of the files *)

Section Selection.

Variable w : World.
Variable args : Args.

Lemma json_files_of_spec (entries : list string) (f : string) :
  In f (json_files_of entries) <-> In f entries /\ exists stem, f = stem ++ ".json".
Proof.
  unfold json_files_of, is_json. rewrite filter_In, PyFacts.endswith_iff. tauto.
Qed.

(** C7: the files of the loop are the entries of the folder whose names
    end with [.json], and no other entry is ever read; when there is no
    such entry, [main] prints one line and returns without any read or
    subprocess. *)
Theorem json_entries_are_selected (h : trace) (entries : list string) :
  os_path_isdir w h (definitions_dir args) = true ->
  listing w args h = inr entries ->
  (forall f, In f (json_files_of entries)
             <-> In f entries /\ exists stem, f = stem ++ ".json")
  /\
  (json_files_of entries <> [] ->
   emitted (main w args h)
   = (prelude args entries
      ++ emitted (run_files w args (sorted (json_files_of entries))
                    (h ++ prelude args entries)))%list)
  /\
  (forall p, In (OpenRead p) (emitted (main w args h)) ->
             exists f, (In f entries /\ exists stem, f = stem ++ ".json")
                       /\ p = path_of args f)
  /\
  (json_files_of entries = [] ->
   main w args h
   = ([IsDir (definitions_dir args); ListDir (definitions_dir args);
       Print (Msg.no_json_files (definitions_dir args))], inr tt)).
Proof.
  intros Hdir Hlist. unfold listing in Hlist.
  split; [apply json_files_of_spec|].
  split; [intros Hne; now rewrite (main_loop w args h entries Hdir Hlist Hne)|].
  split; [|now apply main_no_json].
  intros p Hin.
  destruct (json_files_of entries) as [|f0 fs] eqn:Ej.
  - rewrite (main_no_json w args h entries Hdir Hlist Ej) in Hin.
    cbn [emitted fst In] in Hin.
    destruct Hin as [Hin|[Hin|[Hin|[]]]]; discriminate.
  - assert (Hne : json_files_of entries <> []) by (rewrite Ej; discriminate).
    rewrite (main_loop w args h entries Hdir Hlist Hne) in Hin.
    cbn [emitted fst] in Hin. apply in_app_or in Hin. destruct Hin as [Hin|Hin].
    + cbn [prelude In] in Hin. destruct Hin as [Hin|[Hin|[Hin|[]]]]; discriminate.
    + destruct (run_files_reads w args _ _ _ Hin) as (f & Hf & ->).
      exists f. split; [|reflexivity]. apply json_files_of_spec.
      eapply Permutation_in; [apply SortFacts.sorted_perm | exact Hf].
Qed.

End Selection.

Lemma json_entries_are_selected_witness :
  os_path_isdir demo_world [] (definitions_dir demo_args) = true /\
  listing demo_world demo_args [] = inr demo_entries /\
  (In "A_x.json" (json_files_of demo_entries)
   <-> In "A_x.json" demo_entries /\ exists stem, "A_x.json" = stem ++ ".json").
Proof.
  split; [reflexivity|]. split; [reflexivity|].
  exact (proj1 (json_entries_are_selected demo_world demo_args [] demo_entries
                  eq_refl eq_refl) "A_x.json").
Defined.

Section Order.

Variables w1 w2 : World.
Variable args : Args.
Hypothesis Hsame : same_answers w1 w2.

Lemma subprocess_run_same (argv : list string) (h : trace) :
  subprocess_run w1 argv h = subprocess_run w2 argv h.
Proof.
  destruct Hsame as (_ & _ & Hspawn). unfold subprocess_run. now rewrite Hspawn.
Qed.

Lemma fetch_access_token_same (h : trace) :
  fetch_access_token w1 h = fetch_access_token w2 h.
Proof.
  unfold fetch_access_token, bind. now rewrite subprocess_run_same.
Qed.

Lemma create_metadata_resource_same (pid loc ty rid path : string) (h : trace) :
  create_metadata_resource w1 pid loc ty rid path h
  = create_metadata_resource w2 pid loc ty rid path h.
Proof.
  pose proof Hsame as (_ & Hread & _).
  unfold create_metadata_resource.
  cbv beta iota delta [bind try print open_read].
  rewrite Hread.
  destruct (read_text w2 (h ++ [Print (Msg.processing path ty rid)])%list path)
    as [e|definition]; [reflexivity|].
  rewrite fetch_access_token_same.
  destruct (fetch_access_token w2 _) as [t [e|access_token]]; [reflexivity|].
  now rewrite subprocess_run_same.
Qed.

Lemma process_file_same (filename : string) (h : trace) :
  process_file w1 args "aspectTypes" filename h
  = process_file w2 args "aspectTypes" filename h.
Proof.
  unfold process_file.
  destruct (Py.is_empty (resource_id_of filename)); [reflexivity|].
  apply create_metadata_resource_same.
Qed.

Lemma run_files_same (files : list string) (h : trace) :
  run_files w1 args files h = run_files w2 args files h.
Proof.
  revert h. induction files as [|f rest IH]; intros h; [reflexivity|].
  unfold run_files in *. rewrite !for_each_cons, process_file_same.
  destruct (outcome (process_file w2 args "aspectTypes" f h)); [reflexivity|].
  now rewrite IH.
Qed.

(** C9: the loop runs over the selected files in ascending order of
    their names (compared character by character).  When [main]
    returns, the files it has read are exactly the selected files with
    an ID, in that order; when it raises, they are those files in that
    order up to the one whose iteration raised.  A world that lists the
    same entries in another order leads to the same run. *)
Theorem processing_order_is_sorted (h : trace) (entries1 entries2 : list string) :
  os_path_isdir w1 h (definitions_dir args) = true ->
  listing w1 args h = inr entries1 ->
  listing w2 args h = inr entries2 ->
  Permutation entries1 entries2 ->
  Sorted str_le (sorted (json_files_of entries1)) /\
  Permutation (sorted (json_files_of entries1)) (json_files_of entries1) /\
  sorted (json_files_of entries2) = sorted (json_files_of entries1) /\
  (json_files_of entries1 <> [] ->
   emitted (main w1 args h)
   = (prelude args entries1
      ++ emitted (run_files w1 args (sorted (json_files_of entries1))
                    (h ++ prelude args entries1)))%list) /\
  match outcome (main w1 args h) with
  | inr _ =>
      reads (emitted (main w1 args h))
      = map (fun f => OpenRead (path_of args f))
          (filter has_id (sorted (json_files_of entries1)))
  | inl _ =>
      exists pre f post,
        filter has_id (sorted (json_files_of entries1)) = (pre ++ f :: post)%list /\
        reads (emitted (main w1 args h))
        = map (fun f => OpenRead (path_of args f)) (pre ++ [f])%list
  end /\
  main w2 args h = main w1 args h.
Proof.
  intros Hdir H1 H2 P.
  assert (Pj : Permutation (json_files_of entries1) (json_files_of entries2))
    by now apply SortFacts.filter_perm.
  assert (Es : sorted (json_files_of entries2) = sorted (json_files_of entries1))
    by (symmetry; now apply SortFacts.sorted_order_independent).
  split; [apply SortFacts.sorted_Sorted|].
  split; [apply SortFacts.sorted_perm|].
  split; [exact Es|].
  assert (Hdir2 : os_path_isdir w2 h (definitions_dir args) = true)
    by (destruct Hsame as (Hd & _); now rewrite <- Hd).
  unfold listing in H1, H2.
  split; [intros Hne; now rewrite (main_loop w1 args h entries1 Hdir H1 Hne)|].
  assert (D : json_files_of entries1 = [] \/ json_files_of entries1 <> [])
    by (destruct (json_files_of entries1); [now left | right; discriminate]).
  split.
  { destruct D as [E1|Hne1].
    - rewrite (main_no_json w1 args h entries1 Hdir H1 E1). now rewrite E1.
    - rewrite (main_loop w1 args h entries1 Hdir H1 Hne1). cbn [emitted outcome fst snd].
      pose proof (run_files_reads_exact w1 args (sorted (json_files_of entries1))
                    (h ++ prelude args entries1)%list) as Hx.
      destruct (outcome (run_files w1 args (sorted (json_files_of entries1))
                           (h ++ prelude args entries1)%list));
        rewrite reads_app; cbn [prelude reads filter is_read app]; exact Hx. }
  destruct D as [E1|Hne1].
  - assert (E2 : json_files_of entries2 = [])
      by (rewrite E1 in Pj; now apply Permutation_nil in Pj).
    rewrite (main_no_json w1 args h entries1 Hdir H1 E1).
    now rewrite (main_no_json w2 args h entries2 Hdir2 H2 E2).
  - assert (Hne2 : json_files_of entries2 <> []).
    { intros E2. rewrite E2 in Pj. now apply Permutation_sym, Permutation_nil in Pj. }
    rewrite (main_loop w1 args h entries1 Hdir H1 Hne1).
    rewrite (main_loop w2 args h entries2 Hdir2 H2 Hne2).
    assert (Ep : prelude args entries2 = prelude args entries1).
    { unfold prelude. now rewrite (Permutation_length Pj). }
    rewrite Ep, Es. now rewrite run_files_same.
Qed.

End Order.

Lemma processing_order_is_sorted_witness :
  same_answers demo_world reversed_world /\
  Permutation demo_entries (rev demo_entries) /\
  sorted (json_files_of (rev demo_entries)) = ["A_x.json"; "___.json"; "b.json"] /\
  reads (emitted (main demo_world demo_args []))
  = [OpenRead "defs/A_x.json"; OpenRead "defs/b.json"] /\
  main reversed_world demo_args [] = main demo_world demo_args [].
Proof.
  assert (Hs : same_answers demo_world reversed_world)
    by (repeat split; intros; reflexivity).
  split; [exact Hs|]. split; [apply Permutation_rev|].
  destruct (processing_order_is_sorted demo_world reversed_world demo_args Hs []
              demo_entries (rev demo_entries) eq_refl eq_refl eq_refl
              (Permutation_rev demo_entries))
    as (_ & _ & Es & _ & Hreads & Em).
  split; [exact Es|]. split; [exact Hreads | exact Em].
Defined.

(** ** Claims about failures *)

Section Failures.

Variable w : World.
Variable args : Args.
Hypothesis Hstarts : token_command_starts w.

(** Every failure of an iteration is then reported by [print] and the
    iteration returns normally. *)
Lemma process_file_returns (filename : string) (h : trace) :
  outcome (process_file w args "aspectTypes" filename h) = inr tt.
Proof.
  destruct (process_file_cases w args filename h) as [[_ Hskip]|[_ R]].
  - now rewrite Hskip.
  - destruct (outcome (process_file w args "aspectTypes" filename h)) as [e|[]];
      [exfalso | reflexivity].
    destruct (file_run_raises _ _ _ _ _ _ _ _ _ R) as (Htok & Hcpe & Hval & _).
    rewrite token_result_spawn in Htok.
    destruct (spawn w _ access_token_command) as [e'|p] eqn:Hspawn.
    + injection Htok as ->.
      destruct (Hstarts _ _ Hspawn) as [(rc & cmd & out & err & ->)|(msg & ->)];
        [now apply (Hcpe rc cmd out err) | now apply (Hval msg)].
    + destruct (returncode p =? 0)%Z;
        [destruct (Py.is_empty _); [|discriminate]|];
        injection Htok as <-;
        [now apply (Hval Msg.empty_token) | now eapply Hcpe].
Qed.

(** The loop then goes on with the next file, whatever happened to the
    current one. *)
Lemma run_files_continues (f : string) (rest : list string) (h : trace) :
  run_files w args (f :: rest) h =
  let seg := emitted (process_file w args "aspectTypes" f h) in
  ((seg ++ emitted (run_files w args rest (h ++ seg)))%list,
   outcome (run_files w args rest (h ++ seg)%list)).
Proof.
  unfold run_files. now rewrite for_each_cons, process_file_returns.
Qed.

Lemma run_files_returns (files : list string) (h : trace) :
  outcome (run_files w args files h) = inr tt.
Proof.
  revert h. induction files as [|f rest IH]; intros h; [reflexivity|].
  rewrite run_files_continues. apply IH.
Qed.

(** [main] returns normally as long as the folder can be listed. *)
Lemma main_returns (h : trace) :
  (forall e, listing w args h <> inl e) ->
  outcome (main w args h) = inr tt.
Proof.
  intros Hlist. destruct (os_path_isdir w h (definitions_dir args)) eqn:Hdir.
  - destruct (listing w args h) as [e|entries] eqn:Hl; [now elim (Hlist e)|].
    assert (D : json_files_of entries = [] \/ json_files_of entries <> [])
      by (destruct (json_files_of entries); [now left | right; discriminate]).
    destruct D as [E|E].
    + now rewrite (main_no_json w args h entries Hdir Hl E).
    + rewrite (main_loop w args h entries Hdir Hl E). apply run_files_returns.
  - unfold main. cbv beta iota delta [bind isdir print]. now rewrite Hdir.
Qed.

End Failures.

(** C2 (the code at the failing input): on a machine without [gcloud]
    the [FileNotFoundError] of [subprocess.run] is not caught by the
    [except] clauses of the token block; it leaves
    [create_metadata_resource] and [main] as an exception, after the
    token request and without any printed report. *)
Theorem missing_gcloud_is_not_caught :
  outcome (main no_gcloud_world demo_args [])
  = inl (FileNotFoundError "[Errno 2] No such file or directory: 'gcloud'")
  /\ last (emitted (main no_gcloud_world demo_args [])) (Print "")
     = Run access_token_command.
Proof. split; reflexivity. Qed.

(** C4 (the code at the failing input): after the token failure on the
    first file of the loop ([A_x.json]) the run stops; the later files
    ([___.json], [b.json]) are not considered. *)
Theorem missing_gcloud_ends_the_loop :
  sorted (json_files_of demo_entries) = ["A_x.json"; "___.json"; "b.json"] /\
  emitted (main no_gcloud_world demo_args [])
  = [IsDir "defs"; ListDir "defs";
     Print "Found 3 JSON definition file(s) in 'defs'.";
     Print "Processing 'defs/A_x.json' for aspectTypes ID: 'a-x'...";
     OpenRead "defs/A_x.json";
     Run ["gcloud"; "auth"; "print-access-token"]].
Proof. split; reflexivity. Qed.

(** * Further properties of the script *)

(** ** [strip] and the shape of what it returns *)

Module StripFacts.

Lemma first_is_lstrip (p : ascii -> bool) (s : string) :
  first_is p (Py.lstrip p s) = false.
Proof.
  induction s as [|c r IH]; [reflexivity|].
  cbn [Py.lstrip]. destruct (p c) eqn:E; [exact IH | exact E].
Qed.

(** [rstrip] keeps the first character of what it returns. *)
Lemma rstrip_head (p : ascii -> bool) (s : string) (b : ascii) (r' : string) :
  Py.rstrip p s = String b r' -> exists r, s = String b r.
Proof.
  destruct s as [|c r]; [discriminate|]. cbn [Py.rstrip].
  destruct (Py.rstrip p r); [destruct (p c)|]; intros H; try discriminate;
    injection H as -> _; eauto.
Qed.

Lemma first_is_rstrip (p : ascii -> bool) (s : string) :
  first_is p s = false -> first_is p (Py.rstrip p s) = false.
Proof.
  intros H. destruct (Py.rstrip p s) as [|b r'] eqn:E; [reflexivity|].
  destruct (rstrip_head p s b r' E) as [r ->]. exact H.
Qed.

Lemma last_is_rstrip (p : ascii -> bool) (s : string) :
  last_is p (Py.rstrip p s) = false.
Proof.
  induction s as [|c r IH]; [reflexivity|].
  cbn [Py.rstrip]. destruct (Py.rstrip p r) as [|b r'].
  - destruct (p c) eqn:E; [reflexivity | exact E].
  - exact IH.
Qed.

Lemma first_is_strip (p : ascii -> bool) (s : string) :
  first_is p (Py.strip p s) = false.
Proof. apply first_is_rstrip, first_is_lstrip. Qed.

Lemma last_is_strip (p : ascii -> bool) (s : string) :
  last_is p (Py.strip p s) = false.
Proof. apply last_is_rstrip. Qed.

Lemma lstrip_fixed (p : ascii -> bool) (s : string) :
  first_is p s = false -> Py.lstrip p s = s.
Proof. destruct s as [|c r]; [reflexivity|]. simpl. now intros ->. Qed.

Lemma rstrip_fixed (p : ascii -> bool) (s : string) :
  last_is p s = false -> Py.rstrip p s = s.
Proof.
  induction s as [|c r IH]; [reflexivity|].
  cbn [last_is Py.rstrip]. destruct r as [|b r'].
  - cbn [Py.rstrip]. now intros ->.
  - intros H. now rewrite (IH H).
Qed.

Lemma strip_fixed (p : ascii -> bool) (s : string) :
  first_is p s = false -> last_is p s = false -> Py.strip p s = s.
Proof.
  intros Hf Hl. unfold Py.strip. now rewrite lstrip_fixed, rstrip_fixed.
Qed.

Lemma strip_all (p : ascii -> bool) (s : string) :
  Py.all p s = true -> Py.strip p s = "".
Proof.
  intros H. unfold Py.strip.
  assert (E : Py.lstrip p s = "").
  { induction s as [|c r IH]; [reflexivity|].
    simpl in H. apply andb_prop in H. destruct H as [Hc Hr].
    cbn [Py.lstrip]. rewrite Hc. now apply IH. }
  now rewrite E.
Qed.

Lemma all_lstrip (q p : ascii -> bool) (s : string) :
  Py.all q s = true -> Py.all q (Py.lstrip p s) = true.
Proof.
  induction s as [|c r IH]; [reflexivity|].
  intros H. cbn [Py.lstrip]. destruct (p c); [|exact H].
  simpl in H. apply andb_prop in H. now apply IH.
Qed.

Lemma all_rstrip (q p : ascii -> bool) (s : string) :
  Py.all q s = true -> Py.all q (Py.rstrip p s) = true.
Proof.
  induction s as [|c r IH]; [reflexivity|].
  intros H. simpl in H. apply andb_prop in H. destruct H as [Hc Hr].
  cbn [Py.rstrip]. specialize (IH Hr).
  destruct (Py.rstrip p r) as [|b r'].
  - destruct (p c); [reflexivity|]. simpl. now rewrite Hc.
  - cbn [Py.all] in *. now rewrite Hc.
Qed.

Lemma adjacent_hyphens_tail (c : ascii) (r : string) :
  adjacent_hyphens (String c r) = false -> adjacent_hyphens r = false.
Proof. cbn [adjacent_hyphens]. intros H. now apply orb_false_elim in H. Qed.

Lemma adjacent_hyphens_lstrip (p : ascii -> bool) (s : string) :
  adjacent_hyphens s = false -> adjacent_hyphens (Py.lstrip p s) = false.
Proof.
  induction s as [|c r IH]; [reflexivity|].
  intros H. cbn [Py.lstrip]. destruct (p c); [|exact H].
  now apply IH, (adjacent_hyphens_tail c).
Qed.

Lemma adjacent_hyphens_rstrip (p : ascii -> bool) (s : string) :
  adjacent_hyphens s = false -> adjacent_hyphens (Py.rstrip p s) = false.
Proof.
  induction s as [|c r IH]; [reflexivity|].
  intros H. pose proof (adjacent_hyphens_tail c r H) as Hr. specialize (IH Hr).
  cbn [Py.rstrip]. destruct (Py.rstrip p r) as [|b r'] eqn:E.
  - destruct (p c); [reflexivity|]. simpl. now rewrite andb_false_r.
  - destruct (rstrip_head p r b r' E) as [r0 ->].
    cbn [adjacent_hyphens first_is] in *.
    apply orb_false_elim in H. destruct H as [H _].
    now rewrite H, IH.
Qed.

End StripFacts.

(** ** The shape of the resource ID *)

Module IdFacts.

Lemma id_char_cases (c : ascii) :
  is_id_char c = true ->
  Py.lower_char c = c /\ OsPath.is_sep c = false /\ OsPath.is_extsep c = false.
Proof. destruct c as [[] [] [] [] [] [] [] []]; intros H; try discriminate H; now repeat split. Qed.

Lemma lower_alnum_not_hyphen (c : ascii) :
  Py.is_lower_alnum c = true -> Py.is_hyphen c = false.
Proof. destruct c as [[] [] [] [] [] [] [] []]; intros H; try discriminate H; reflexivity. Qed.

Lemma sub_from_alphabet (in_run : bool) (s : string) :
  Py.all is_id_char (Re.sub_from in_run s) = true.
Proof.
  revert in_run. induction s as [|c r IH]; intros in_run; [reflexivity|].
  cbn [Re.sub_from]. destruct (Py.is_lower_alnum c) eqn:E.
  - cbn [Py.all]. unfold is_id_char at 1. now rewrite E, IH.
  - destruct in_run; [apply IH|]. cbn [Py.all]. now rewrite IH.
Qed.

(** Inside a match the scanner writes no hyphen until the match ends. *)
Lemma sub_from_inside_head (s : string) :
  first_is Py.is_hyphen (Re.sub_from true s) = false.
Proof.
  induction s as [|c r IH]; [reflexivity|].
  cbn [Re.sub_from]. destruct (Py.is_lower_alnum c) eqn:E; [|exact IH].
  now apply lower_alnum_not_hyphen.
Qed.

Lemma sub_from_no_adjacent (in_run : bool) (s : string) :
  adjacent_hyphens (Re.sub_from in_run s) = false.
Proof.
  revert in_run. induction s as [|c r IH]; intros in_run; [reflexivity|].
  cbn [Re.sub_from]. destruct (Py.is_lower_alnum c) eqn:E.
  - cbn [adjacent_hyphens]. now rewrite (lower_alnum_not_hyphen c E), IH.
  - destruct in_run; [apply IH|].
    cbn [adjacent_hyphens]. now rewrite sub_from_inside_head, IH, andb_false_r.
Qed.

(** On a word over [a-z0-9-] without two hyphens in a row the scanner
    changes nothing. *)
Lemma sub_from_fixed (s : string) :
  Py.all is_id_char s = true ->
  adjacent_hyphens s = false ->
  Re.sub_from false s = s /\
  (first_is Py.is_hyphen s = false -> Re.sub_from true s = s).
Proof.
  induction s as [|c r IH]; intros Hall Hadj; [now split|].
  cbn [Py.all] in Hall. apply andb_prop in Hall. destruct Hall as [Hc Hr].
  cbn [adjacent_hyphens] in Hadj. apply orb_false_elim in Hadj.
  destruct Hadj as [Hsep Hadj]. destruct (IH Hr Hadj) as [IH1 IH2].
  cbn [Re.sub_from first_is]. destruct (Py.is_lower_alnum c) eqn:E.
  - rewrite IH1. now split.
  - unfold is_id_char in Hc. rewrite E in Hc. cbn [orb] in Hc.
    rewrite Hc in Hsep. cbn [andb] in Hsep.
    unfold Py.is_hyphen in Hc. apply Ascii.eqb_eq in Hc. subst c.
    split; [now rewrite (IH2 Hsep) | discriminate].
Qed.

Lemma lower_fixed (s : string) :
  Py.all is_id_char s = true -> Py.lower s = s.
Proof.
  induction s as [|c r IH]; [reflexivity|].
  intros H. cbn [Py.all] in H. apply andb_prop in H. destruct H as [Hc Hr].
  cbn [Py.lower]. destruct (id_char_cases c Hc) as (-> & _). now rewrite IH.
Qed.

Lemma id_chars_no_sep (s : string) :
  Py.all is_id_char s = true ->
  Py.all (fun c => negb (OsPath.is_sep c)) s = true.
Proof.
  induction s as [|c r IH]; [reflexivity|].
  intros H. cbn [Py.all] in *. apply andb_prop in H. destruct H as [Hc Hr].
  destruct (id_char_cases c Hc) as (_ & -> & _). now rewrite IH.
Qed.

Lemma id_chars_not_dots (s : string) :
  Py.is_empty s = false -> Py.all is_id_char s = true ->
  Py.all OsPath.is_extsep s = false.
Proof.
  destruct s as [|c r]; [discriminate|]. intros _ H.
  cbn [Py.all] in *. apply andb_prop in H. destruct H as [Hc _].
  now destruct (id_char_cases c Hc) as (_ & _ & ->).
Qed.

(** Lowercasing commutes with [os.path.splitext]. *)
Lemma lower_char_keeps (c : ascii) :
  Ascii.eqb (Py.lower_char c) OsPath.sep = Ascii.eqb c OsPath.sep /\
  Ascii.eqb (Py.lower_char c) OsPath.extsep = Ascii.eqb c OsPath.extsep /\
  Py.lower_char (Py.lower_char c) = Py.lower_char c.
Proof. destruct c as [[] [] [] [] [] [] [] []]; now repeat split. Qed.

Lemma rfind_lower (s : string) (c : ascii) :
  (forall a, Ascii.eqb (Py.lower_char a) c = Ascii.eqb a c) ->
  Py.rfind (Py.lower s) c = Py.rfind s c.
Proof.
  intros Hc. induction s as [|a r IH]; [reflexivity|].
  cbn [Py.lower Py.rfind]. now rewrite IH, Hc.
Qed.

Lemma length_lower (s : string) : String.length (Py.lower s) = String.length s.
Proof. induction s as [|a r IH]; [reflexivity | simpl; now rewrite IH]. Qed.

Lemma substring_lower (n m : nat) (s : string) :
  substring n m (Py.lower s) = Py.lower (substring n m s).
Proof.
  revert n m. induction s as [|a r IH]; intros n m.
  - destruct n, m; reflexivity.
  - destruct n as [|n].
    + destruct m as [|m]; [reflexivity|]. cbn [Py.lower substring]. now rewrite IH.
    + cbn [Py.lower substring]. apply IH.
Qed.

Lemma eqb_lower_dot (x : string) :
  String.eqb (Py.lower x) (String OsPath.extsep EmptyString)
  = String.eqb x (String OsPath.extsep EmptyString).
Proof.
  destruct x as [|c r]; [reflexivity|].
  cbn [Py.lower String.eqb].
  destruct (lower_char_keeps c) as (_ & -> & _). now destruct r.
Qed.

Lemma has_non_dot_lower (p : string) (i : Z) (n : nat) :
  OsPath.has_non_dot (Py.lower p) i n = OsPath.has_non_dot p i n.
Proof.
  revert i. induction n as [|n IH]; intros i; [reflexivity|].
  cbn [OsPath.has_non_dot]. unfold Py.slice1.
  now rewrite substring_lower, eqb_lower_dot, IH.
Qed.

Lemma base_name_lower (filename : string) :
  base_name (Py.lower filename) = Py.lower (base_name filename).
Proof.
  unfold base_name, OsPath.splitext.
  rewrite !rfind_lower by (intros a; apply (lower_char_keeps a)).
  rewrite has_non_dot_lower.
  destruct (Py.rfind filename OsPath.sep <? Py.rfind filename OsPath.extsep)%Z;
    [|reflexivity].
  destruct (OsPath.has_non_dot filename _ _); [|reflexivity].
  cbn [fst]. unfold Py.slice_to. apply substring_lower.
Qed.

Lemma lower_lower (s : string) : Py.lower (Py.lower s) = Py.lower s.
Proof.
  induction s as [|c r IH]; [reflexivity|]. cbn [Py.lower].
  destruct (lower_char_keeps c) as (_ & _ & ->). now rewrite IH.
Qed.

Lemma resource_id_of_lower (filename : string) :
  resource_id_of (Py.lower filename) = resource_id_of filename.
Proof.
  unfold resource_id_of. now rewrite base_name_lower, lower_lower.
Qed.

Lemma well_formed_resource_id (filename : string) :
  well_formed_id (resource_id_of filename) = has_id filename.
Proof.
  unfold well_formed_id, has_id, resource_id_of.
  set (raw := Re.sub_non_alnum (Py.lower (base_name filename))).
  assert (Ha : Py.all is_id_char (Py.strip Py.is_hyphen raw) = true).
  { unfold Py.strip. apply StripFacts.all_rstrip, StripFacts.all_lstrip.
    apply sub_from_alphabet. }
  assert (Hd : adjacent_hyphens (Py.strip Py.is_hyphen raw) = false).
  { unfold Py.strip.
    apply StripFacts.adjacent_hyphens_rstrip, StripFacts.adjacent_hyphens_lstrip.
    apply sub_from_no_adjacent. }
  rewrite Ha, Hd, StripFacts.first_is_strip, StripFacts.last_is_strip.
  cbn [negb]. now rewrite !andb_true_r.
Qed.

End IdFacts.

(** X1: every derived resource ID is either empty or a well-formed
    identifier: a word over [a-z0-9-] that neither starts nor ends with
    a hyphen and has no two hyphens in a row. *)
Theorem resource_id_is_well_formed (filename : string) :
  well_formed_id (resource_id_of filename) = has_id filename.
Proof. exact (IdFacts.well_formed_resource_id filename). Qed.

(** X2: a file named after a well-formed identifier gets that very
    identifier: every well-formed ID is the ID of some filename, and
    deriving an ID from an ID changes nothing. *)
Theorem well_formed_id_is_kept (id : string) :
  well_formed_id id = true ->
  resource_id_of (id ++ ".json") = id.
Proof.
  unfold well_formed_id. intros H.
  repeat (apply andb_prop in H; destruct H as [H ?]).
  repeat match goal with
         | H : negb _ = true |- _ => apply negb_true_iff in H
         end.
  unfold resource_id_of, base_name.
  rewrite PyFacts.splitext_json;
    [| now apply IdFacts.id_chars_no_sep | now apply IdFacts.id_chars_not_dots].
  cbn [fst]. rewrite IdFacts.lower_fixed by assumption.
  unfold Re.sub_non_alnum.
  rewrite (proj1 (IdFacts.sub_from_fixed id ltac:(assumption) ltac:(assumption))).
  now apply StripFacts.strip_fixed.
Qed.

Lemma well_formed_id_is_kept_witness :
  well_formed_id "my-data-contract2" = true /\
  resource_id_of ("my-data-contract2" ++ ".json") = "my-data-contract2".
Proof.
  split; [reflexivity|].
  apply (well_formed_id_is_kept "my-data-contract2"). reflexivity.
Defined.

(** X3: the resource ID ignores the case of letters: two filenames that
    are equal once lowercased get the same ID. *)
Theorem resource_id_ignores_case (filename1 filename2 : string) :
  Py.lower filename1 = Py.lower filename2 ->
  resource_id_of filename1 = resource_id_of filename2.
Proof.
  intros H.
  rewrite <- (IdFacts.resource_id_of_lower filename1).
  rewrite <- (IdFacts.resource_id_of_lower filename2).
  now rewrite H.
Qed.

Lemma resource_id_ignores_case_witness :
  Py.lower "My_Data.json" = Py.lower "my_DATA.json" /\
  resource_id_of "My_Data.json" = resource_id_of "my_DATA.json".
Proof.
  split; [reflexivity|].
  apply (resource_id_ignores_case "My_Data.json" "my_DATA.json"). reflexivity.
Defined.

(** ** How an iteration and a whole run end *)

Section RunFacts.

Variable w : World.
Variable args : Args.

Lemma ends_with_print_cons (e : event) (t : trace) :
  ends_with_print t -> ends_with_print (e :: t).
Proof. intros (t' & line & ->). now exists (e :: t'), line. Qed.

Lemma ends_with_print_app (t1 t2 : trace) :
  ends_with_print t2 -> ends_with_print (t1 ++ t2)%list.
Proof.
  intros (t' & line & ->). exists (t1 ++ t')%list, line. apply app_assoc.
Qed.

Lemma ends_with_print_one (line : string) : ends_with_print [Print line].
Proof. now exists [], line. Qed.

(** A call that returns has printed its last line; a call that raises
    stopped at the token request. *)
Lemma file_run_end (pid loc ty rid path : string) (h t : trace) (r : exn + unit) :
  file_run w pid loc ty rid path h t r ->
  match r with
  | inr _ => ends_with_print t
  | inl e =>
      handled_by_token_block e = false /\
      spawn w (at_token ty rid path h) access_token_command = inl e /\
      t = token_requested ty rid path
  end.
Proof.
  intros R. pose proof R as R0. destruct R;
    try (cbn [app started token_requested];
         now repeat first [apply ends_with_print_one | apply ends_with_print_cons]).
  destruct (file_run_raises _ _ _ _ _ _ _ _ _ R0) as (Htok & Hcpe & Hval & _).
  rewrite token_result_spawn in Htok.
  assert (Hh : handled_by_token_block e = false).
  { destruct e; try reflexivity; [now elim (Hcpe returncode0 cmd stdout0 stderr0)
                                 | now elim (Hval msg)]. }
  split; [exact Hh|]. split; [|reflexivity].
  destruct (spawn w _ access_token_command) as [e'|p];
    [now injection Htok as ->|].
  exfalso. destruct (returncode p =? 0)%Z;
    [destruct (Py.is_empty _); [|discriminate]|];
    injection Htok as <-; discriminate Hh.
Qed.

Lemma process_file_end (filename : string) (h : trace) :
  match outcome (process_file w args "aspectTypes" filename h) with
  | inr _ => ends_with_print (emitted (process_file w args "aspectTypes" filename h))
  | inl e =>
      handled_by_token_block e = false /\
      token_answer w args filename h = inl e /\
      emitted (process_file w args "aspectTypes" filename h)
      = token_requested "aspectTypes" (resource_id_of filename) (path_of args filename)
  end.
Proof.
  destruct (process_file_cases w args filename h) as [[_ Hskip]|[_ R]].
  - rewrite Hskip. apply ends_with_print_one.
  - exact (file_run_end _ _ _ _ _ _ _ _ R).
Qed.

(** The four ways [main] can go. *)
Lemma main_listing_fails (h : trace) (e : exn) :
  os_path_isdir w h (definitions_dir args) = true ->
  listing w args h = inl e ->
  main w args h
  = ([IsDir (definitions_dir args); ListDir (definitions_dir args)], inl e).
Proof.
  intros Hdir Hlist. unfold listing in Hlist. unfold main.
  cbv beta iota delta [bind isdir listdir print].
  rewrite Hdir. cbn [negb]. now rewrite Hlist.
Qed.

Lemma main_cases (h : trace) :
  (main w args h
   = ([IsDir (definitions_dir args); Print (Msg.dir_not_found (definitions_dir args))],
      inr tt))
  \/ (exists e, listing w args h = inl e /\
        main w args h
        = ([IsDir (definitions_dir args); ListDir (definitions_dir args)], inl e))
  \/ (main w args h
      = ([IsDir (definitions_dir args); ListDir (definitions_dir args);
          Print (Msg.no_json_files (definitions_dir args))], inr tt))
  \/ (exists entries,
        listing w args h = inr entries /\ json_files_of entries <> [] /\
        main w args h
        = ((prelude args entries
            ++ emitted (run_files w args (sorted (json_files_of entries))
                          (h ++ prelude args entries)))%list,
           outcome (run_files w args (sorted (json_files_of entries))
                      (h ++ prelude args entries)%list))).
Proof.
  destruct (os_path_isdir w h (definitions_dir args)) eqn:Hdir.
  - destruct (listing w args h) as [e|entries] eqn:Hl.
    + right; left. exists e. split; [reflexivity | now apply main_listing_fails].
    + assert (D : json_files_of entries = [] \/ json_files_of entries <> [])
        by (destruct (json_files_of entries); [now left | right; discriminate]).
      destruct D as [E|E].
      * right; right; left. now apply (main_no_json w args h entries).
      * right; right; right. exists entries. split; [reflexivity|]. split; [exact E|].
        now apply main_loop.
  - left. now apply main_dir_missing.
Qed.

(** The loop raises only what a token request raised and the token
    block does not handle. *)
Lemma run_files_raises (files : list string) (h : trace) (e : exn) :
  outcome (run_files w args files h) = inl e ->
  handled_by_token_block e = false /\
  exists h', spawn w h' access_token_command = inl e.
Proof.
  revert h. induction files as [|f rest IH]; intros h H; [discriminate|].
  unfold run_files in H. rewrite for_each_cons in H.
  pose proof (process_file_end f h) as Hend.
  destruct (outcome (process_file w args "aspectTypes" f h)) as [e0|[]].
  - cbn [outcome snd] in H. injection H as ->.
    destruct Hend as (Hh & Hs & _). split; [exact Hh|]. eexists. exact Hs.
  - cbn [outcome snd] in H. exact (IH _ H).
Qed.

Lemma filter_length_app (p : event -> bool) (t1 t2 : trace) :
  length (filter p (t1 ++ t2)%list) = length (filter p t1) + length (filter p t2).
Proof. now rewrite filter_app, length_app. Qed.

(** One call: at most one create request, after at most one token
    request, after exactly one read. *)
Lemma file_run_counts (pid loc ty rid path : string) (h t : trace) (r : exn + unit) :
  file_run w pid loc ty rid path h t r ->
  length (posts t) <= length (token_fetches t) /\
  length (token_fetches t) <= length (reads t) /\
  length (reads t) = 1.
Proof. intros R. destruct R; cbn; lia. Qed.

End RunFacts.

(** ** What a run does and what it never does *)

Section RunProperties.

Variable w : World.
Variable args : Args.

(** X4: an iteration that returns has printed a line as the last thing
    it did: whatever it met (a name without ID, a read error, a token
    failure, a failed or a successful [curl]), it has reported it. *)
Theorem returning_iteration_has_reported (filename : string) (h : trace) :
  outcome (process_file w args "aspectTypes" filename h) = inr tt ->
  ends_with_print (emitted (process_file w args "aspectTypes" filename h)).
Proof.
  intros H. pose proof (process_file_end w args filename h) as He.
  now rewrite H in He.
Qed.


Lemma run_files_ends_with_print (files : list string) (h : trace) :
  outcome (run_files w args files h) = inr tt -> files <> [] ->
  ends_with_print (emitted (run_files w args files h)).
Proof.
  revert h. induction files as [|f rest IH]; intros h H Hne; [contradiction|].
  unfold run_files in *. rewrite for_each_cons in *.
  pose proof (process_file_end w args f h) as He.
  destruct (outcome (process_file w args "aspectTypes" f h)) as [e|u];
    [discriminate|].
  cbn [outcome emitted fst snd] in *.
  destruct rest as [|f' rest'].
  - cbn [for_each ret emitted fst]. now rewrite app_nil_r.
  - apply ends_with_print_app, IH; [exact H | discriminate].
Qed.

(** X6: whenever [main] returns, the last thing it did was to print a
    line: the missing folder, the empty selection, or the outcome of
    the last file. *)
Theorem returning_main_has_reported (h : trace) :
  outcome (main w args h) = inr tt ->
  ends_with_print (emitted (main w args h)).
Proof.
  intros H.
  destruct (main_cases w args h)
    as [Hm|[(e0 & _ & Hm)|[Hm|(entries & _ & Hne & Hm)]]];
    rewrite Hm in *; cbn [emitted outcome fst snd] in *.
  - now exists [IsDir (definitions_dir args)], (Msg.dir_not_found (definitions_dir args)).
  - discriminate.
  - now exists [IsDir (definitions_dir args); ListDir (definitions_dir args)],
               (Msg.no_json_files (definitions_dir args)).
  - apply ends_with_print_app, run_files_ends_with_print; [exact H|].
    intros E. apply Hne. apply Permutation_nil.
    rewrite <- E. apply SortFacts.sorted_perm.
Qed.

Lemma run_files_reads_all (files : list string) (h : trace) :
  token_command_starts w ->
  reads (emitted (run_files w args files h))
  = map (fun f => OpenRead (path_of args f)) (filter has_id files).
Proof.
  intros Hs. revert h. induction files as [|f rest IH]; intros h; [reflexivity|].
  rewrite (run_files_continues w args Hs). cbn [emitted fst].
  rewrite reads_app, IH. cbn [filter].
  destruct (process_file_cases w args f h) as [[E Hskip]|[E R]].
  - assert (Hid : has_id f = false) by (unfold has_id; now rewrite E).
    now rewrite Hskip, Hid.
  - assert (Hid : has_id f = true)
      by (unfold has_id; destruct (resource_id_of f); [contradiction | reflexivity]).
    now rewrite (file_run_reads _ _ _ _ _ _ _ _ _ R), Hid.
Qed.


(** X8: in any run of the loop there are at most as many create
    requests as token requests, at most as many token requests as reads,
    and at most as many reads as files: no file is requested twice. *)
Theorem requests_are_bounded_by_files (files : list string) (h : trace) :
  length (posts (emitted (run_files w args files h)))
    <= length (token_fetches (emitted (run_files w args files h))) /\
  length (token_fetches (emitted (run_files w args files h)))
    <= length (reads (emitted (run_files w args files h))) /\
  length (reads (emitted (run_files w args files h))) <= length files.
Proof.
  revert h. induction files as [|f rest IH]; intros h.
  - cbn. lia.
  - unfold run_files. rewrite for_each_cons. fold (run_files w args rest).
    assert (Hseg : length (posts (emitted (process_file w args "aspectTypes" f h)))
                   <= length (token_fetches (emitted (process_file w args "aspectTypes" f h)))
                   /\ length (token_fetches (emitted (process_file w args "aspectTypes" f h)))
                      <= length (reads (emitted (process_file w args "aspectTypes" f h)))
                   /\ length (reads (emitted (process_file w args "aspectTypes" f h))) <= 1).
    { destruct (process_file_cases w args f h) as [[_ Hskip]|[_ R]].
      - rewrite Hskip. cbn. lia.
      - pose proof (file_run_counts w _ _ _ _ _ _ _ _ R). lia. }
    destruct (outcome (process_file w args "aspectTypes" f h)); cbn [emitted fst length].
    + lia.
    + specialize (IH (h ++ emitted (process_file w args "aspectTypes" f h))%list).
      unfold posts, token_fetches, reads in *. rewrite !filter_length_app. lia.
Qed.

(** X9: the only commands that [main] ever runs are the token command
    and [curl] create requests; it runs nothing that deletes or
    changes what an earlier request created. *)
Theorem only_token_and_create_commands (h : trace) (argv : list string) :
  In (Run argv) (emitted (main w args h)) ->
  argv = access_token_command \/
  exists api_url access_token definition,
    argv = curl_command api_url access_token definition.
Proof.
  intros Hin.
  destruct (main_cases w args h)
    as [Hm|[(e0 & _ & Hm)|[Hm|(entries & _ & _ & Hm)]]];
    rewrite Hm in Hin; cbn [emitted fst In] in Hin;
    try (repeat (destruct Hin as [Hin|Hin]; [discriminate Hin|]); contradiction).
  apply in_app_or in Hin. destruct Hin as [Hin|Hin].
  - cbn [prelude In] in Hin.
    repeat (destruct Hin as [Hin|Hin]; [discriminate Hin|]). contradiction.
  - exact (run_files_commands w args _ _ _ Hin).
Qed.

(** X10: the token that a create request carries is never empty and has
    no white space at either end: it is the output of the token command
    of the same iteration, which exited with 0, stripped. *)
Theorem bearer_token_is_stripped_output (filename : string) (h : trace)
    (argv : list string) :
  In (Run argv) (emitted (process_file w args "aspectTypes" filename h)) ->
  hd "" argv = "curl" ->
  exists access_token p,
    nth_error argv 8 = Some ("Authorization: Bearer " ++ access_token) /\
    access_token <> "" /\
    first_is Py.is_space access_token = false /\
    last_is Py.is_space access_token = false /\
    token_answer w args filename h = inr p /\
    returncode p = 0%Z /\
    access_token = Py.strip Py.is_space (stdout p).
Proof.
  intros Hin Hcurl.
  assert (Hp : In (Run argv) (posts (emitted (process_file w args "aspectTypes" filename h)))).
  { apply filter_In. split; [exact Hin|]. simpl. now rewrite Hcurl. }
  destruct (process_file_cases w args filename h) as [[E Hskip]|[E R]].
  - rewrite Hskip in Hp. contradiction.
  - destruct (file_run_posts _ _ _ _ _ _ _ _ _ R)
      as [[_ Hnone]|(definition & access_token & _ & Htok & Hone)].
    + rewrite Hnone in Hp. contradiction.
    + rewrite Hone in Hp. destruct Hp as [Hp|[]]. injection Hp as <-.
      rewrite token_result_spawn in Htok. unfold token_answer, fetching_at.
      destruct (spawn w _ access_token_command) as [e|p]; [discriminate|].
      destruct (returncode p =? 0)%Z eqn:Hrc; [|discriminate].
      destruct (Py.is_empty (Py.strip Py.is_space (stdout p))) eqn:He; [discriminate|].
      injection Htok as <-.
      exists (Py.strip Py.is_space (stdout p)), p.
      split; [reflexivity|].
      split; [intros Hempty; rewrite Hempty in He; discriminate|].
      split; [apply StripFacts.first_is_strip|].
      split; [apply StripFacts.last_is_strip|].
      split; [reflexivity|]. split; [now apply Z.eqb_eq | reflexivity].
Qed.


(** Running the loop over [files1 ++ files2] is running it over
    [files1] and then, unless that raised, over [files2] in the trace
    that [files1] left. *)
Lemma run_files_app (files1 files2 : list string) (h : trace) :
  run_files w args (files1 ++ files2) h =
  match outcome (run_files w args files1 h) with
  | inl e => (emitted (run_files w args files1 h), inl e)
  | inr _ =>
      ((emitted (run_files w args files1 h)
        ++ emitted (run_files w args files2 (h ++ emitted (run_files w args files1 h))))%list,
       outcome (run_files w args files2 (h ++ emitted (run_files w args files1 h))%list))
  end.
Proof.
  revert h. induction files1 as [|f rest IH]; intros h.
  - cbn [app run_files for_each ret outcome emitted fst snd]. rewrite app_nil_r.
    unfold run_files, emitted, outcome. now destruct (for_each files2 _ h).
  - cbn [app]. unfold run_files in *. rewrite !for_each_cons.
    destruct (outcome (process_file w args "aspectTypes" f h)); [reflexivity|].
    rewrite IH.
    set (seg := emitted (process_file w args "aspectTypes" f h)).
    set (R := for_each rest (process_file w args "aspectTypes") (h ++ seg)%list).
    destruct (outcome R); cbn [outcome emitted fst snd]; [reflexivity|].
    now rewrite <- !app_assoc.
Qed.



End RunProperties.

(** ** No path is read twice *)

Module ListFacts.

Lemma NoDup_filter_keep {A} (p : A -> bool) (l : list A) :
  NoDup l -> NoDup (filter p l).
Proof.
  induction 1 as [|x l Hx _ IH]; [constructor|].
  cbn [filter]. destruct (p x); [|exact IH].
  constructor; [|exact IH]. intros Hin. apply Hx.
  now apply filter_In in Hin.
Qed.

Lemma NoDup_firstn_keep {A} (k : nat) (l : list A) :
  NoDup l -> NoDup (firstn k l).
Proof.
  intros H. revert k. induction H as [|x l Hx _ IH]; intros k.
  - destruct k; constructor.
  - destruct k as [|k]; [constructor|]. cbn [firstn].
    constructor; [|apply IH]. intros Hin. apply Hx.
    rewrite <- (firstn_skipn k l). apply in_or_app. now left.
Qed.

Lemma NoDup_map_on {A B} (f : A -> B) (l : list A) :
  (forall x y, In x l -> In y l -> f x = f y -> x = y) ->
  NoDup l -> NoDup (map f l).
Proof.
  intros Hinj H. induction H as [|x l Hx _ IH]; [constructor|].
  cbn [map]. constructor.
  - intros Hin. apply in_map_iff in Hin. destruct Hin as (y & Hy & Hin).
    assert (y = x) by (apply Hinj; [now right | now left | exact Hy]).
    subst y. contradiction.
  - apply IH. intros a b Ha Hb. apply Hinj; now right.
Qed.

Lemma In_firstn {A} (k : nat) (l : list A) (x : A) :
  In x (firstn k l) -> In x l.
Proof.
  intros H. rewrite <- (firstn_skipn k l). apply in_or_app. now left.
Qed.

Lemma string_app_inv_head (a s1 s2 : string) : a ++ s1 = a ++ s2 -> s1 = s2.
Proof.
  induction a as [|c a IH]; [trivial|]. cbn [String.append].
  intros H. injection H as H. now apply IH.
Qed.

End ListFacts.

Section Paths.

Variable w : World.
Variable args : Args.

(** [os.path.join] with a fixed folder sends different names that do
    not start with a separator to different paths. *)
Lemma path_of_injective (f1 f2 : string) :
  Py.startswith f1 "/" = false ->
  Py.startswith f2 "/" = false ->
  path_of args f1 = path_of args f2 -> f1 = f2.
Proof.
  unfold path_of, OsPath.join. intros H1 H2.
  change (String OsPath.sep EmptyString) with "/". rewrite H1, H2.
  destruct (Py.is_empty (definitions_dir args) || Py.endswith (definitions_dir args) "/")%bool;
    intros H.
  - now apply ListFacts.string_app_inv_head in H.
  - apply ListFacts.string_app_inv_head in H.
    now apply (ListFacts.string_app_inv_head "/") in H.
Qed.

(** X15: when the entries of the folder are distinct names, none of
    which starts with a path separator (as [os.listdir] returns them),
    no path is opened twice in a run: no file is retried. *)
Theorem no_path_is_read_twice (h : trace) (entries : list string) :
  os_path_isdir w h (definitions_dir args) = true ->
  listing w args h = inr entries ->
  NoDup entries ->
  (forall f, In f entries -> Py.startswith f "/" = false) ->
  NoDup (reads (emitted (main w args h))).
Proof.
  intros Hdir Hl Hnd Hrel.
  assert (D : json_files_of entries = [] \/ json_files_of entries <> [])
    by (destruct (json_files_of entries); [now left | right; discriminate]).
  destruct D as [E|E].
  - rewrite (main_no_json w args h entries Hdir Hl E). constructor.
  - rewrite (main_loop w args h entries Hdir Hl E). cbn [emitted fst].
    rewrite reads_app. cbn [prelude reads filter is_read app].
    destruct (run_files_reads_in_order w args (sorted (json_files_of entries))
                (h ++ prelude args entries)%list) as [k ->].
    assert (Hin : forall f,
               In f (firstn k (filter has_id (sorted (json_files_of entries)))) ->
               In f entries).
    { intros f Hf. apply ListFacts.In_firstn, filter_In in Hf. destruct Hf as [Hf _].
      apply (Permutation_in _ (SortFacts.sorted_perm _)) in Hf.
      now apply filter_In in Hf. }
    apply ListFacts.NoDup_map_on.
    + intros f1 f2 H1 H2 Heq. injection Heq as Heq.
      apply path_of_injective; [apply Hrel, Hin, H1 | apply Hrel, Hin, H2 | exact Heq].
    + apply ListFacts.NoDup_firstn_keep, ListFacts.NoDup_filter_keep.
      apply (Permutation_NoDup (Permutation_sym (SortFacts.sorted_perm _))).
      now apply ListFacts.NoDup_filter_keep.
Qed.

End Paths.

(** ** The properties above on the sample worlds *)

Lemma demo_world_starts_token_command : token_command_starts demo_world.
Proof. intros h e H. cbv in H. discriminate H. Qed.

Lemma returning_iteration_has_reported_witness :
  outcome (process_file unreadable_world demo_args "aspectTypes" "b.json" []) = inr tt /\
  ends_with_print (emitted (process_file unreadable_world demo_args "aspectTypes" "b.json" [])).
Proof.
  split; [reflexivity|].
  apply (returning_iteration_has_reported unreadable_world demo_args "b.json" []).
  reflexivity.
Defined.


Lemma returning_main_has_reported_witness :
  outcome (main demo_world demo_args []) = inr tt /\
  ends_with_print (emitted (main demo_world demo_args [])).
Proof.
  split; [reflexivity|].
  apply (returning_main_has_reported demo_world demo_args []). reflexivity.
Defined.


Lemma only_token_and_create_commands_witness :
  In (Run access_token_command) (emitted (main demo_world demo_args [])) /\
  (access_token_command = access_token_command \/
   exists api_url access_token definition,
     access_token_command = curl_command api_url access_token definition).
Proof.
  assert (Hin : In (Run access_token_command) (emitted (main demo_world demo_args [])))
    by (vm_compute; tauto).
  split; [exact Hin|].
  exact (only_token_and_create_commands demo_world demo_args [] _ Hin).
Defined.

Lemma bearer_token_is_stripped_output_witness :
  exists access_token p,
    nth_error (curl_command (url_template "proj" "global" "a-x") "ya29.t2"
                 "{defs/A_x.json}") 8
    = Some ("Authorization: Bearer " ++ access_token) /\
    access_token <> "" /\
    first_is Py.is_space access_token = false /\
    last_is Py.is_space access_token = false /\
    token_answer demo_world demo_args "A_x.json" [] = inr p /\
    returncode p = 0%Z /\
    access_token = Py.strip Py.is_space (stdout p).
Proof.
  apply (bearer_token_is_stripped_output demo_world demo_args "A_x.json" []).
  - vm_compute. tauto.
  - reflexivity.
Defined.




Lemma no_path_is_read_twice_witness :
  NoDup demo_entries /\
  (forall f, In f demo_entries -> Py.startswith f "/" = false) /\
  NoDup (reads (emitted (main demo_world demo_args []))).
Proof.
  assert (Hnd : NoDup demo_entries).
  { unfold demo_entries. repeat constructor; cbn [In]; intuition discriminate. }
  assert (Hrel : forall f, In f demo_entries -> Py.startswith f "/" = false)
    by (intros f [<-|[<-|[<-|[<-|[]]]]]; reflexivity).
  split; [exact Hnd|]. split; [exact Hrel|].
  exact (no_path_is_read_twice demo_world demo_args [] demo_entries
           eq_refl eq_refl Hnd Hrel).
Defined.

(** ** Every create request of a run *)

Section Posts.

Variable w : World.
Variable args : Args.

(** A create request of the loop belongs to one of its files: its URL
    is built from the ID of that file and its body is text that was
    read from the path of that file. *)
Lemma run_files_posts (files : list string) (h : trace) (argv : list string) :
  In (Run argv) (emitted (run_files w args files h)) ->
  hd "" argv = "curl" ->
  exists f access_token definition h',
    In f files /\ has_id f = true /\
    read_text w h' (path_of args f) = inr definition /\
    argv = curl_command
             (url_template (project_id args) (location args) (resource_id_of f))
             access_token definition.
Proof.
  revert h. induction files as [|f rest IH]; intros h Hin Hcurl; [contradiction|].
  unfold run_files in Hin. rewrite for_each_cons in Hin.
  assert (Hseg : In (Run argv) (emitted (process_file w args "aspectTypes" f h)) ->
                 exists access_token definition h',
                   has_id f = true /\
                   read_text w h' (path_of args f) = inr definition /\
                   argv = curl_command
                            (url_template (project_id args) (location args)
                               (resource_id_of f))
                            access_token definition).
  { intros Hs.
    assert (Hp : In (Run argv) (posts (emitted (process_file w args "aspectTypes" f h))))
      by (apply filter_In; split; [exact Hs | simpl; now rewrite Hcurl]).
    destruct (process_file_cases w args f h) as [[_ Hskip]|[E R]].
    - rewrite Hskip in Hp. contradiction.
    - destruct (file_run_posts _ _ _ _ _ _ _ _ _ R)
        as [[_ Hnone]|(definition & access_token & Hread & _ & Hone)].
      + rewrite Hnone in Hp. contradiction.
      + rewrite Hone in Hp. destruct Hp as [Hp|[]]. injection Hp as <-.
        exists access_token, definition. eexists. split; [|split; [exact Hread | reflexivity]].
        unfold has_id. destruct (resource_id_of f); [contradiction | reflexivity]. }
  destruct (outcome (process_file w args "aspectTypes" f h)); cbn [emitted fst] in Hin.
  - destruct (Hseg Hin) as (tok & d & h' & H1 & H2 & H3).
    exists f, tok, d, h'. repeat split; try assumption. now left.
  - apply in_app_or in Hin. destruct Hin as [Hin|Hin].
    + destruct (Hseg Hin) as (tok & d & h' & H1 & H2 & H3).
      exists f, tok, d, h'. repeat split; try assumption. now left.
    + destruct (IH _ Hin Hcurl) as (f' & tok & d & h' & H0 & H1 & H2 & H3).
      exists f', tok, d, h'. repeat split; try assumption. now right.
Qed.


End Posts.

